(** * TextEditor: the content synchronisation core of react-texteditor

    A shallow embedding of the three generations of the [TextEditor]
    component:

    - [V1]: src/TextEditor.jsx,
    - [V2]: src/TextEditor.js, the component with sticky controls,
    - [V3]: src/TextEditor.js, the component with link actions.

    The component is written against draft-js.  The parts of draft-js the
    component's link logic relies on (character metadata, entity store,
    [Modifier.applyEntity] with its removal of the entities at the edges of
    the selection, [EditorState.createWithContent], [EditorState.push],
    [RichUtils.toggleLink], [ContentState.createFromText], the entry of
    [convertFromRaw]) are modelled in [Module Draft]; the remaining engine
    primitives are an interface ([DraftEngine]), and so is
    [String.prototype.trim] ([Builtins]). *)

From stdpp Require Import base decidable option list gmap strings.
From Stdlib Require Import Ascii String ZArith.

(** ** JavaScript values and completions *)

Module Completion.

(** Errors a JavaScript call may raise. *)
Inductive Error :=
| TypeError (msg : string)
| InvariantViolation (msg : string).

(** The outcome of a call: a value, or an exception that propagates to the
    caller unless a [try]/[catch] intercepts it. *)
Inductive Completion (A : Type) :=
| Normal (a : A)
| Throw (e : Error).
Arguments Normal {A} a.
Arguments Throw {A} e.

(** Sequencing: an exception raised by the first call skips the rest. *)
#[global] Instance Completion_ret : MRet Completion := fun A a => Normal a.
#[global] Instance Completion_bind : MBind Completion := fun A B f m =>
  match m with
  | Normal a => f a
  | Throw e => Throw e
  end.

#[global] Instance Completion_fmap : FMap Completion := fun A B f m =>
  match m with
  | Normal a => Normal (f a)
  | Throw e => Throw e
  end.

Definition returns {A} (m : Completion A) : Prop := exists a, m = Normal a.

Definition throws {A} (m : Completion A) : Prop := exists e, m = Throw e.

End Completion.
Export Completion.

(** ** The draft-js document model *)

Module Draft.

(** Entity keys are the decimal rendering of a process-wide counter; the
    counter itself stands for the key. *)
Definition EntityKey := nat.

(** [CharacterMetadata]: the inline styles of one character (an ordered
    set of style names) and the entity it belongs to, if any. *)
Record CharacterMetadata := {
  getStyle : list string;
  getEntity : option EntityKey
}.

#[global] Instance CharacterMetadata_eq_dec : EqDecision CharacterMetadata.
Proof. solve_decision. Defined.

Definition CharacterMetadata_EMPTY : CharacterMetadata :=
  {| getStyle := []; getEntity := None |}.

(** [CharacterMetadata.applyEntity(record, entityKey)]. *)
Definition CharacterMetadata_applyEntity (c : CharacterMetadata)
    (entityKey : option EntityKey) : CharacterMetadata :=
  {| getStyle := getStyle c; getEntity := entityKey |}.

(** [ContentBlock]: [getText] and [getCharacterList] run in parallel, one
    metadata record per character. *)
Record ContentBlock := {
  getKey : string;
  getType : string;
  getText : string;
  getCharacterList : list CharacterMetadata
}.

#[global] Instance ContentBlock_eq_dec : EqDecision ContentBlock.
Proof. solve_decision. Defined.

Definition getLength (b : ContentBlock) : nat := String.length (getText b).

Definition getEntityAt (b : ContentBlock) (offset : nat) : option EntityKey :=
  c ← getCharacterList b !! offset; getEntity c.

(** [SelectionState]. *)
Record SelectionState := {
  getAnchorKey : string;
  getAnchorOffset : nat;
  getFocusKey : string;
  getFocusOffset : nat;
  getIsBackward : bool;
  getHasFocus : bool
}.

#[global] Instance SelectionState_eq_dec : EqDecision SelectionState.
Proof. solve_decision. Defined.

Definition getStartKey (s : SelectionState) : string :=
  if getIsBackward s then getFocusKey s else getAnchorKey s.

Definition getStartOffset (s : SelectionState) : nat :=
  if getIsBackward s then getFocusOffset s else getAnchorOffset s.

Definition getEndKey (s : SelectionState) : string :=
  if getIsBackward s then getAnchorKey s else getFocusKey s.

Definition getEndOffset (s : SelectionState) : nat :=
  if getIsBackward s then getAnchorOffset s else getFocusOffset s.

Definition isCollapsed (s : SelectionState) : bool :=
  String.eqb (getAnchorKey s) (getFocusKey s)
  && Nat.eqb (getAnchorOffset s) (getFocusOffset s).

(** [SelectionState.createEmpty(key)]. *)
Definition SelectionState_createEmpty (key : string) : SelectionState :=
  {| getAnchorKey := key; getAnchorOffset := 0;
     getFocusKey := key; getFocusOffset := 0;
     getIsBackward := false; getHasFocus := false |}.

(** [ContentState]: the ordered block map (a list, in document order) and
    the selections recorded before and after the last modification. *)
Record ContentState := {
  getBlockMap : list ContentBlock;
  getSelectionBefore : SelectionState;
  getSelectionAfter : SelectionState
}.

#[global] Instance ContentState_eq_dec : EqDecision ContentState.
Proof. solve_decision. Defined.

Fixpoint findBlock (blocks : list ContentBlock) (key : string) : option ContentBlock :=
  match blocks with
  | [] => None
  | b :: rest => if String.eqb (getKey b) key then Some b else findBlock rest key
  end.

Definition getBlockForKey (c : ContentState) (key : string) : option ContentBlock :=
  findBlock (getBlockMap c) key.

(** The entity store.  In draft-js it is a single process-wide table
    ([DraftEntity]): [ContentState.createEntity] adds to it and returns the
    content it was called on. *)
Record EntityData := {
  href : string;
  created : string
}.

Record DraftEntityInstance := {
  entityType : string;
  entityMutability : string;
  getData : EntityData
}.

Record DraftEntity := {
  instances : gmap nat DraftEntityInstance;
  instanceKey : nat
}.

Definition DraftEntity_create (store : DraftEntity) (ty mutability : string)
    (data : EntityData) : DraftEntity :=
  let key := S (instanceKey store) in
  {| instances := <[key := {| entityType := ty; entityMutability := mutability;
                              getData := data |}]> (instances store);
     instanceKey := key |}.

Definition getLastCreatedEntityKey (store : DraftEntity) : EntityKey :=
  instanceKey store.

Definition DraftEntity_get (store : DraftEntity) (key : EntityKey)
    : option DraftEntityInstance :=
  instances store !! key.

(** [EditorState]: the current content, the selection and the type of the
    last change.  The undo and redo stacks are not modelled. *)
Record EditorState := {
  getCurrentContent : ContentState;
  getSelection : SelectionState;
  getLastChangeType : option string
}.

#[global] Instance EditorState_eq_dec : EqDecision EditorState.
Proof. solve_decision. Defined.

(** [EditorState.createWithContent(content, decorator)]: the selection is
    an empty one on the first block, whose key is read with
    [content.getBlockMap().first().getKey()]; on a content without blocks
    [first()] is [undefined] and the call raises. *)
Definition createWithContent (content : ContentState) : Completion EditorState :=
  match getBlockMap content with
  | [] => Throw (TypeError "Cannot read property 'getKey' of undefined")
  | first :: _ =>
      Normal {| getCurrentContent := content;
                getSelection := SelectionState_createEmpty (getKey first);
                getLastChangeType := None |}
  end.

(** [EditorState.push(editorState, contentState, changeType)].  Pushing the
    content the state already holds returns the state itself; object
    identity is rendered by structural equality. *)
Definition push (editorState : EditorState) (contentState : ContentState)
    (changeType : option string) : EditorState :=
  if decide (getCurrentContent editorState = contentState) then editorState
  else {| getCurrentContent := contentState;
          getSelection := getSelectionAfter contentState;
          getLastChangeType := changeType |}.

(** [applyEntityToContentBlock(block, start, end, entityKey)]: the loop
    rewrites the metadata of the characters at [start], ..., [end - 1].
    Offsets past the end of the block, which a selection of the editor
    never holds, touch nothing. *)
Definition applyEntityToContentBlock (b : ContentBlock) (start end_ : nat)
    (entityKey : option EntityKey) : ContentBlock :=
  {| getKey := getKey b;
     getType := getType b;
     getText := getText b;
     getCharacterList :=
       imap (fun i c => if bool_decide (start <= i < end_)
                        then CharacterMetadata_applyEntity c entityKey
                        else c)
            (getCharacterList b) |}.

(** The blocks from the one keyed [startKey] up to and including the one
    keyed [endKey] are rewritten, the first from [startOffset] on, the last
    up to [endOffset], the ones between as a whole.  [inside] tells whether
    the block keyed [startKey] has been passed. *)
Fixpoint applyEntityToBlocks (blocks : list ContentBlock) (inside : bool)
    (startKey : string) (startOffset : nat) (endKey : string) (endOffset : nat)
    (entityKey : option EntityKey) : list ContentBlock :=
  match blocks with
  | [] => []
  | b :: rest =>
      let isStart := String.eqb (getKey b) startKey in
      let isEnd := String.eqb (getKey b) endKey in
      if inside || isStart then
        let sliceStart := if isStart then startOffset else 0 in
        let sliceEnd := if isEnd then endOffset else getLength b in
        applyEntityToContentBlock b sliceStart sliceEnd entityKey ::
          (if isEnd then rest
           else applyEntityToBlocks rest true startKey startOffset endKey endOffset
                  entityKey)
      else
        b :: applyEntityToBlocks rest false startKey startOffset endKey endOffset
               entityKey
  end.

(** [applyEntityToContentState(contentState, selectionState, entityKey)]. *)
Definition applyEntityToContentState (contentState : ContentState)
    (selectionState : SelectionState) (entityKey : option EntityKey)
    : ContentState :=
  {| getBlockMap :=
       applyEntityToBlocks (getBlockMap contentState) false
         (getStartKey selectionState) (getStartOffset selectionState)
         (getEndKey selectionState) (getEndOffset selectionState) entityKey;
     getSelectionBefore := selectionState;
     getSelectionAfter := selectionState |}.

(** [findRangesImmutable(haystack, areEqualFn, filterFn, foundFn)]: the
    ranges handed to [foundFn], in the order found.  The list is cut where
    two neighbours are not equal; a run is reported when its last element
    passes the filter.  [value] is the element read last, [cursor] the
    start of its run and [nextIndex] the index of the element after it. *)
Fixpoint findRangesFrom {A} (areEqual : A -> A -> bool) (filter : A -> bool)
    (value : A) (rest : list A) (cursor nextIndex : nat) : list (nat * nat) :=
  match rest with
  | [] => if filter value then [(cursor, nextIndex)] else []
  | nextValue :: rest' =>
      if areEqual value nextValue then
        findRangesFrom areEqual filter nextValue rest' cursor (S nextIndex)
      else
        (if filter value then [(cursor, nextIndex)] else [])
        ++ findRangesFrom areEqual filter nextValue rest' nextIndex (S nextIndex)
  end.

Definition findRangesImmutable {A} (haystack : list A)
    (areEqual : A -> A -> bool) (filter : A -> bool) : list (nat * nat) :=
  match haystack with
  | [] => []
  | first :: rest => findRangesFrom areEqual filter first rest 0 1
  end.

(** [getRemovalRange(characters, key, offset)]: the last run of characters
    with the entity [key] that touches [offset]. *)
Definition getRemovalRange (characters : list CharacterMetadata) (key : EntityKey)
    (offset : nat) : option (nat * nat) :=
  last
    (List.filter
       (fun range : nat * nat => Nat.leb range.1 offset && Nat.leb offset range.2)
       (findRangesImmutable characters
          (fun a b => bool_decide (getEntity a = getEntity b))
          (fun element => bool_decide (getEntity element = Some key)))).

(** [removeForBlock(entityMap, block, offset)] of removeEntitiesAtEdges:
    when the characters before and after [offset] carry one and the same
    entity and that entity is not MUTABLE, the entity is taken off its whole
    run around [offset].  An entity key unknown to the store, on which
    draft-js raises, leaves the block as it is; the run around [offset]
    always exists ([getRemovalRange_exists]). *)
Definition removeForBlock (store : DraftEntity) (block : ContentBlock)
    (offset : nat) : ContentBlock :=
  let entityBeforeCursor :=
    if Nat.ltb 0 offset then getEntityAt block (offset - 1) else None in
  let entityAfterCursor := getEntityAt block offset in
  match entityAfterCursor with
  | Some key =>
      if bool_decide (entityBeforeCursor = Some key) then
        match DraftEntity_get store key with
        | Some entity =>
            if String.eqb (entityMutability entity) "MUTABLE" then block
            else
              match getRemovalRange (getCharacterList block) key offset with
              | Some (start, end_) =>
                  applyEntityToContentBlock block start end_ None
              | None => block
              end
        | None => block
        end
      else block
  | None => block
  end.

(** [blockMap.merge({ [key]: block })] for a key of the map: the block of
    that key is replaced where it stands. *)
Fixpoint setBlock (blocks : list ContentBlock) (key : string)
    (block : ContentBlock) : list ContentBlock :=
  match blocks with
  | [] => []
  | b :: rest =>
      if String.eqb (getKey b) key then block :: rest
      else b :: setBlock rest key block
  end.

(** [removeEntitiesAtEdges(contentState, selectionState)].  A selection of
    the editor starts and ends in blocks of the content; for a key that
    names no block, on which draft-js raises, the content is left as it
    is. *)
Definition removeEntitiesAtEdges (store : DraftEntity) (contentState : ContentState)
    (selectionState : SelectionState) : ContentState :=
  let blockMap := getBlockMap contentState in
  let startKey := getStartKey selectionState in
  let endKey := getEndKey selectionState in
  match findBlock blockMap startKey with
  | None => contentState
  | Some startBlock =>
      let updatedStart :=
        removeForBlock store startBlock (getStartOffset selectionState) in
      match (if String.eqb startKey endKey then Some updatedStart
             else findBlock blockMap endKey) with
      | None => contentState
      | Some endBlock =>
          let updatedEnd :=
            removeForBlock store endBlock (getEndOffset selectionState) in
          {| getBlockMap :=
               setBlock (setBlock blockMap startKey updatedStart) endKey updatedEnd;
             getSelectionBefore := getSelectionBefore contentState;
             getSelectionAfter := selectionState |}
      end
  end.

(** [Modifier.applyEntity(contentState, selectionState, entityKey)]: the
    entities at the edges of the selection are removed first.  [store] is
    the process-wide entity store. *)
Definition applyEntity (store : DraftEntity) (contentState : ContentState)
    (selectionState : SelectionState) (entityKey : option EntityKey)
    : ContentState :=
  let withoutEntities := removeEntitiesAtEdges store contentState selectionState in
  applyEntityToContentState withoutEntities selectionState entityKey.

(** [RichUtils.toggleLink(editorState, targetSelection, entityKey)]. *)
Definition toggleLink (store : DraftEntity) (editorState : EditorState)
    (targetSelection : SelectionState) (entityKey : option EntityKey)
    : EditorState :=
  let withoutLink :=
    applyEntity store (getCurrentContent editorState) targetSelection entityKey in
  push editorState withoutLink (Some "apply-entity").

(** [ContentState.createFromBlockArray(blocks)]. *)
Definition createFromBlockArray (blocks : list ContentBlock) : ContentState :=
  let selectionState :=
    SelectionState_createEmpty
      (match blocks with b :: _ => getKey b | [] => "" end) in
  {| getBlockMap := blocks;
     getSelectionBefore := selectionState;
     getSelectionAfter := selectionState |}.

(** [text.split(/\r\n?|\n/g)] on the characters of the text: [cur] holds
    the characters of the piece being read, last first. *)
Fixpoint splitLines (chars : list ascii) (cur : list ascii) : list string :=
  match chars with
  | [] => [string_of_list_ascii (rev cur)]
  | c :: rest =>
      if Ascii.eqb c "010"%char then
        string_of_list_ascii (rev cur) :: splitLines rest []
      else if Ascii.eqb c "013"%char then
        string_of_list_ascii (rev cur) ::
          match rest with
          | c' :: rest' =>
              if Ascii.eqb c' "010"%char then splitLines rest' []
              else splitLines rest []
          | [] => splitLines rest []
          end
      else splitLines rest (c :: cur)
  end.

(** [ContentState.createFromText(text)]: one unstyled block per line, each
    with a key drawn from [generateRandomKey]; [keys n] is the [n]-th key
    drawn. *)
Definition createFromText (keys : nat -> string) (text : string) : ContentState :=
  createFromBlockArray
    (imap (fun i line =>
             {| getKey := keys i;
                getType := "unstyled";
                getText := line;
                getCharacterList :=
                  replicate (String.length line) CharacterMetadata_EMPTY |})
          (splitLines (list_ascii_of_string text) [])).

End Draft.

(** ** JavaScript values *)

Module JS.

(** The values a prop may hold.  [Content] is a draft-js [ContentState]
    object, the value the 'Immutable' type passes around. *)
#[local] Unset Elimination Schemes.
Inductive Value :=
| Undefined
| Null
| Bool (b : bool)
| Number (n : Z)
| NaN
| Str (s : string)
| Arr (items : list Value)
| Obj (fields : list (string * Value))
| Content (c : Draft.ContentState).
#[local] Set Elimination Schemes.

(** [!!v] *)
Definition truthy (v : Value) : bool :=
  match v with
  | Undefined | Null | NaN => false
  | Bool b => b
  | Number n => negb (Z.eqb n 0)
  | Str s => negb (String.eqb s "")
  | Arr _ | Obj _ | Content _ => true
  end.

Fixpoint assoc (fields : list (string * Value)) (name : string) : Value :=
  match fields with
  | [] => Undefined
  | (k, v) :: rest => if String.eqb k name then v else assoc rest name
  end.

(** [v.name]: reading a property of [undefined] or [null] raises; any
    other value without the property yields [undefined]. *)
Definition prop (v : Value) (name : string) : Completion Value :=
  match v with
  | Undefined | Null =>
      Throw (TypeError ("Cannot read property '" +:+ name +:+ "' of undefined"))
  | Obj fields => Normal (assoc fields name)
  | _ => Normal Undefined
  end.

(** [Object.keys(v)] *)
Definition Object_keys (v : Value) : Completion (list string) :=
  match v with
  | Undefined | Null =>
      Throw (TypeError "Cannot convert undefined or null to object")
  | Obj fields => Normal (fields.*1)
  | _ => Normal []
  end.

End JS.

(** ** The collaborators of the component *)

Import Draft.

(** The draft-js primitives the component calls and this development does
    not look into. *)
Class DraftEngine := {
  (** [generateRandomKey()]: the [n]-th key drawn *)
  generateRandomKey : nat -> string;
  RichUtils_handleKeyCommand : EditorState -> string -> option EditorState;
  RichUtils_toggleInlineStyle : EditorState -> string -> EditorState;
  RichUtils_toggleBlockType : EditorState -> string -> EditorState;
  Modifier_splitBlock : ContentState -> SelectionState -> ContentState;
  (** [Modifier.insertText(content, range, text, null, entityKey)] *)
  Modifier_insertText :
    ContentState -> SelectionState -> string -> option EntityKey -> ContentState;
  (** the body of [convertFromRaw] once [blocks] is an array and
      [entityMap] has keys: it registers the entities and builds the
      blocks *)
  decodeRawState :
    list JS.Value -> JS.Value -> DraftEntity -> Completion (ContentState * DraftEntity);
  convertToRaw : ContentState -> DraftEntity -> JS.Value;
  (** draft-js's own [convertFromHTML], which yields an array of blocks *)
  Draft_convertFromHTML :
    JS.Value -> DraftEntity -> Completion (list ContentBlock * DraftEntity)
}.

(** draft-convert, draft-js-export-html and linkify-it. *)
Class Converters := {
  convertFromHTML : JS.Value -> DraftEntity -> Completion (ContentState * DraftEntity);
  convertToHTML : ContentState -> DraftEntity -> string;
  stateToHTML : ContentState -> DraftEntity -> string;
  (** [linkify.match(text)]: the [url] of the first match, if there is a
      match *)
  linkify_match : string -> option string
}.

(** The built-in of the JavaScript engine the link component calls:
    [String.prototype.trim].  What it takes off either end is the white
    space and the line terminators of the engine (U+00A0, U+FEFF, U+2028
    and the space separators of Unicode among them); the texts of this
    development fix no encoding of such characters, so the function is a
    parameter. *)
Class Builtins := {
  String_trim : string -> string
}.

(** [convertFromRaw(rawState)] of draft-js: it requires [rawState.blocks]
    to be an array, walks [Object.keys(rawState.entityMap)] and maps over
    the blocks.  A raw state whose [blocks] is no array, or whose
    [entityMap] is [undefined] or [null], makes it raise; which error it
    raises for the former depends on the version of draft-js (an invariant
    violation as of 0.10.5, a [TypeError] before). *)
Definition convertFromRaw `{DraftEngine} (rawState : JS.Value) (store : DraftEntity)
    : Completion (ContentState * DraftEntity) :=
  blocks ← JS.prop rawState "blocks";
  match blocks with
  | JS.Arr items =>
      entityMap ← JS.prop rawState "entityMap";
      _ ← JS.Object_keys entityMap;
      decodeRawState items entityMap store
  | _ => Throw (InvariantViolation "invalid RawDraftContentState")
  end.

(** [EditorState.createWithContent(content, decorator)] applied to whatever
    the converter returned: it calls [content.getBlockMap()]. *)
Definition createWithContentOf (content : JS.Value) : Completion EditorState :=
  match content with
  | JS.Content c => createWithContent c
  | JS.Undefined | JS.Null =>
      Throw (TypeError "Cannot read property 'getBlockMap' of undefined")
  | _ => Throw (TypeError "contentState.getBlockMap is not a function")
  end.

(** [EditorState.push(editorState, content)] applied to whatever the
    converter returned. *)
Definition pushOf (editorState : EditorState) (content : JS.Value)
    (changeType : option string) : Completion EditorState :=
  match content with
  | JS.Content c => Normal (push editorState c changeType)
  | JS.Undefined | JS.Null =>
      Throw (TypeError "Cannot read property 'getSelectionAfter' of undefined")
  | _ => Throw (TypeError "contentState.getSelectionAfter is not a function")
  end.

(** ** Props *)

(** The props the three components read.  [onChange] tells whether
    [typeof props.onChange === 'function']; calling it is recorded in the
    world's [notified] list. *)
Record Props := {
  value : JS.Value;
  type : string;
  editable : bool;
  onlyInline : bool;
  convertLinksInline : bool;
  onChange : bool
}.

(** ** src/TextEditor.jsx *)

Module V1.

Record State := {
  focus : bool;
  editorState : EditorState
}.

(** The component in its environment: its state, the process-wide entity
    store, and the values the host's [onChange] callback has received,
    oldest first. *)
Record World := {
  state : State;
  draftEntity : DraftEntity;
  notified : list JS.Value
}.

Section Component.
Context `{DraftEngine, Converters}.

Definition convertContentFrom (props : Props) (store : DraftEntity)
    : Completion (JS.Value * DraftEntity) :=
  if negb (JS.truthy (value props)) then
    Normal (JS.Content (createFromText generateRandomKey ""), store)
  else if String.eqb (type props) "json" then
    '(content, store') ← convertFromRaw (value props) store;
    Normal (JS.Content content, store')
  else if String.eqb (type props) "html" then
    '(blocks, store') ← Draft_convertFromHTML (value props) store;
    Normal (JS.Content (createFromBlockArray blocks), store')
  else
    Normal (value props, store).

Definition constructor (props : Props) (store : DraftEntity) : Completion World :=
  '(content, store') ← convertContentFrom props store;
  editorState ← createWithContentOf content;
  Normal {| state := {| focus := false; editorState := editorState |};
            draftEntity := store';
            notified := [] |}.

Definition convertContentTo (props : Props) (w : World) : JS.Value :=
  let content := getCurrentContent (editorState (state w)) in
  if String.eqb (type props) "json" then
    convertToRaw content (draftEntity w)
  else if String.eqb (type props) "html" then
    JS.Str (stateToHTML content (draftEntity w))
  else
    JS.Content content.

Definition handleEditorChange (props : Props) (w : World)
    (editorState : EditorState) : World :=
  let focus := getHasFocus (getSelection editorState) in
  let w' := {| state := {| focus := focus; editorState := editorState |};
               draftEntity := draftEntity w;
               notified := notified w |} in
  if negb (onChange props) then w'
  else
    let value := convertContentTo props w' in
    {| state := state w';
       draftEntity := draftEntity w';
       notified := notified w' ++ [value] |}.

Definition handleKeyCommand (props : Props) (w : World) (command : string)
    : World * string :=
  match RichUtils_handleKeyCommand (editorState (state w)) command with
  | Some newEditorStatue => (handleEditorChange props w newEditorStatue, "handled")
  | None => (w, "not-handled")
  end.

(** [event.preventDefault()], which the editable branch calls on the
    mouse event, acts on the event alone and is left out. *)
Definition handleInlineStyleClick (props : Props) (w : World)
    (inlineStyle : string) : World :=
  if negb (editable props) then w
  else
    let editorState :=
      RichUtils_toggleInlineStyle (editorState (state w)) inlineStyle in
    handleEditorChange props w editorState.

Definition handleBlockStyleClick (props : Props) (w : World)
    (blockStyle : string) : World :=
  if negb (editable props) then w
  else
    let editorState :=
      RichUtils_toggleBlockType (editorState (state w)) blockStyle in
    handleEditorChange props w editorState.

End Component.
End V1.

(** ** src/TextEditor.js, the component with sticky controls *)

Module V2.

(** The style [getStickyControlsStyles] computes from the DOM. *)
Record StickyStyle := {
  top : Z;
  right : Z
}.

Record State := {
  focus : bool;
  editorState : EditorState;
  stickyControlsStyle : option StickyStyle
}.

Record World := {
  state : State;
  draftEntity : DraftEntity;
  notified : list JS.Value
}.

(** [str.replace(/<\\/?[^>]+(>|$)/g, '')] on the characters of [str]: a
    match starts at a '<' that is followed by at least one character other
    than '>', and runs through the next '>' or, when there is none, to the
    end.  [inTag] tells whether the characters read belong to a match. *)
Fixpoint stripTags (chars : list ascii) (inTag : bool) : list ascii :=
  match chars with
  | [] => []
  | c :: rest =>
      if inTag then
        if Ascii.eqb c ">"%char then stripTags rest false
        else stripTags rest true
      else if Ascii.eqb c "<"%char then
        match rest with
        | c' :: _ =>
            if Ascii.eqb c' ">"%char then c :: stripTags rest false
            else stripTags rest true
        | [] => [c]
        end
      else c :: stripTags rest false
  end.

Definition convertHTMLToString (str : JS.Value) : JS.Value :=
  match str with
  | JS.Str s => JS.Str (string_of_list_ascii (stripTags (list_ascii_of_string s) false))
  | _ => str
  end.

Section Component.
Context `{DraftEngine, Converters}.

Definition convertContentFrom (props : Props) (store : DraftEntity)
    : Completion (JS.Value * DraftEntity) :=
  if negb (JS.truthy (value props)) then
    Normal (JS.Content (createFromText generateRandomKey ""), store)
  else if String.eqb (type props) "json" then
    '(content, store') ← convertFromRaw (value props) store;
    Normal (JS.Content content, store')
  else if String.eqb (type props) "html" then
    '(content, store') ← convertFromHTML (value props) store;
    Normal (JS.Content content, store')
  else
    Normal (value props, store).

Definition constructor (props : Props) (store : DraftEntity) : Completion World :=
  '(content, store') ← convertContentFrom props store;
  editorState ← createWithContentOf content;
  Normal {| state := {| focus := false; editorState := editorState;
                        stickyControlsStyle := None |};
            draftEntity := store';
            notified := [] |}.

Definition convertContentTo (props : Props) (w : World) : JS.Value :=
  let content := getCurrentContent (editorState (state w)) in
  if String.eqb (type props) "json" then
    convertToRaw content (draftEntity w)
  else if String.eqb (type props) "html" then
    JS.Str (convertToHTML content (draftEntity w))
  else if String.eqb (type props) "text" then
    convertHTMLToString (JS.Content content)
  else
    JS.Content content.

Definition handleEditorChange (props : Props) (w : World)
    (editorState : EditorState) : World :=
  let focus := getHasFocus (getSelection editorState) in
  let w' := {| state := {| focus := focus; editorState := editorState;
                           stickyControlsStyle := stickyControlsStyle (state w) |};
               draftEntity := draftEntity w;
               notified := notified w |} in
  if negb (onChange props) then w'
  else
    let value := convertContentTo props w' in
    {| state := state w';
       draftEntity := draftEntity w';
       notified := notified w' ++ [value] |}.

(** [forceUpdateState(props = this.props)]: the argument [props] is what
    is converted; [handleEditorChange] reads [this.props], here
    [thisProps]. *)
Definition forceUpdateState (thisProps : Props) (w : World) (props : Props)
    : Completion World :=
  '(content, store') ← convertContentFrom props (draftEntity w);
  updatedEditorState ← pushOf (editorState (state w)) content None;
  Normal (handleEditorChange thisProps
            {| state := state w; draftEntity := store'; notified := notified w |}
            updatedEditorState).

Definition handleKeyCommand (props : Props) (w : World) (command : string)
    : World * string :=
  let editorState := editorState (state w) in
  let newEditorStatue := RichUtils_handleKeyCommand editorState command in
  if String.eqb command "split-block" && String.eqb (type props) "html" then
    let content :=
      Modifier_splitBlock (getCurrentContent editorState) (getSelection editorState) in
    let editor := push editorState content (Some "split-block") in
    (handleEditorChange props w editor, "handled")
  else
    match newEditorStatue with
    | Some newEditorStatue => (handleEditorChange props w newEditorStatue, "handled")
    | None => (w, "not-handled")
    end.

Definition handleInlineStyleClick (props : Props) (w : World)
    (inlineStyle : string) : World :=
  if negb (editable props) then w
  else
    let editorState :=
      RichUtils_toggleInlineStyle (editorState (state w)) inlineStyle in
    handleEditorChange props w editorState.

Definition handleBlockStyleClick (props : Props) (w : World)
    (blockStyle : string) : World :=
  if negb (editable props) then w
  else
    let editorState :=
      RichUtils_toggleBlockType (editorState (state w)) blockStyle in
    handleEditorChange props w editorState.

End Component.
End V2.

(** ** src/TextEditor.js, the component with link actions *)

Module V3.

(** What the link dialog hands to [handleLinkChange]. *)
Record LinkState := {
  linkHref : string
}.

Record State := {
  focus : bool;
  editorState : EditorState;
  linkState : option LinkState
}.

Record World := {
  state : State;
  draftEntity : DraftEntity;
  notified : list JS.Value
}.

(** What [getLink] resolves to: the entity and the selection of the whole
    link. *)
Record Link := {
  entity : DraftEntityInstance;
  entityKey : EntityKey;
  selection : SelectionState
}.

(** The functions of ./lib/convert, ./lib/convertStyles and
    ./lib/convertLinks, whose sources are not part of this development.
    [convertLinks] registers the entities of the links it creates. *)
Class Lib := {
  lib_convertContentFrom :
    JS.Value -> string -> DraftEntity -> Completion (JS.Value * DraftEntity);
  lib_convertContentTo : ContentState -> string -> DraftEntity -> JS.Value;
  (** [convertAllStyles(editorState, { allowBlock })] *)
  convertAllStyles : EditorState -> bool -> EditorState;
  (** [convertStyles(editorState, selectionState, { allowBlock })] *)
  convertStyles : EditorState -> SelectionState -> bool -> EditorState;
  convertLinks : EditorState -> DraftEntity -> EditorState * DraftEntity
}.

(** The length of the longest prefix of [l] whose elements satisfy [p]. *)
Fixpoint runLength {A} (p : A -> bool) (l : list A) : nat :=
  match l with
  | x :: rest => if p x then S (runLength p rest) else 0
  | [] => 0
  end.

Definition hasEntity (key : EntityKey) (c : CharacterMetadata) : bool :=
  bool_decide (getEntity c = Some key).

(** The key of the LINK entity the character at [offset] belongs to. *)
Definition linkKeyAt (store : DraftEntity) (block : ContentBlock) (offset : nat)
    : option EntityKey :=
  key ← getEntityAt block offset;
  inst ← DraftEntity_get store key;
  if String.eqb (entityType inst) "LINK" then Some key else None.

(** The first offset in [from, to) whose character belongs to a link. *)
Definition firstLinkOffset (store : DraftEntity) (block : ContentBlock)
    (from to : nat) : option nat :=
  snd <$> list_find (fun i => is_Some (linkKeyAt store block i)) (seq from (to - from)).

(** Modelled from the spec: [getLink] of ./lib/convertLinks, whose source
    is not part of this development.  The spec has it resolve "the link
    entity (if any) covering a collapsed cursor or overlapping a
    non-collapsed selection", and the component reads the link's [entity]
    and the [selection] of the "full link" from the result.  For a collapsed
    cursor the link is the one of the character after the cursor or else of
    the character before it; for a range it is the first link with a
    character in the part of the range that lies in its first block.  The
    link's selection is the longest run of characters around that position
    that carry the link's entity key. *)
Definition getLink (store : DraftEntity) (editorState : EditorState)
    (selectionState : SelectionState) : option Link :=
  block ← getBlockForKey (getCurrentContent editorState) (getStartKey selectionState);
  let offset := getStartOffset selectionState in
  position ←
    (if isCollapsed selectionState then
       if linkKeyAt store block offset is Some _ then Some offset
       else if linkKeyAt store block (offset - 1) is Some _ then Some (offset - 1)
       else None
     else
       firstLinkOffset store block offset
         (if String.eqb (getStartKey selectionState) (getEndKey selectionState)
          then getEndOffset selectionState else getLength block));
  key ← linkKeyAt store block position;
  inst ← DraftEntity_get store key;
  let chars := getCharacterList block in
  let start := position - runLength (hasEntity key) (reverse (take position chars)) in
  let end_ := position + runLength (hasEntity key) (drop position chars) in
  Some {| entity := inst;
          entityKey := key;
          selection :=
            {| getAnchorKey := getKey block; getAnchorOffset := start;
               getFocusKey := getKey block; getFocusOffset := end_;
               getIsBackward := false; getHasFocus := false |} |}.

(** The variables [handleLinkClick] holds when it opens the link dialog;
    the callbacks that run when the dialog closes see them as they were. *)
Record Pending := {
  pendingEditorState : EditorState;
  pendingSelectionState : SelectionState;
  pendingCurrentLink : option Link;
  pendingCurrentContent : ContentState
}.

(** [handleLinkClick] either runs to its end, or opens the link dialog and
    returns, leaving the callbacks of the dialog's promise to run later. *)
Inductive LinkClick :=
| Finished (w : World)
| Prompt (title defaultUrl : string) (pending : Pending).

(** How the dialog closes: confirmed, after it passed its state to
    [onConfirm], or dismissed. *)
Inductive PromptOutcome :=
| Confirmed (entered : LinkState)
| Dismissed.

Section Component.
Context `{DraftEngine, Converters, Builtins, Lib}.

Definition constructor (props : Props) (store : DraftEntity) : Completion World :=
  '(content, store1) ← lib_convertContentFrom (value props) (type props) store;
  editorState ← createWithContentOf content;
  let editorState := convertAllStyles editorState (negb (onlyInline props)) in
  let '(editorState, store2) :=
    if convertLinksInline props then convertLinks editorState store1
    else (editorState, store1) in
  Normal {| state := {| focus := false; editorState := editorState;
                        linkState := None |};
            draftEntity := store2;
            notified := [] |}.

Definition handleEditorChange (props : Props) (w : World)
    (editorState : EditorState) : World :=
  let selectionState := getSelection editorState in
  let focus := getHasFocus selectionState in
  let editorState :=
    convertStyles editorState selectionState (negb (onlyInline props)) in
  let '(editorState, store) :=
    if convertLinksInline props then convertLinks editorState (draftEntity w)
    else (editorState, draftEntity w) in
  let w' := {| state := {| focus := focus; editorState := editorState;
                           linkState := linkState (state w) |};
               draftEntity := store;
               notified := notified w |} in
  if negb (onChange props) then w'
  else
    let value :=
      lib_convertContentTo (getCurrentContent (V3.editorState (state w')))
        (type props) (draftEntity w') in
    {| state := state w';
       draftEntity := draftEntity w';
       notified := notified w' ++ [value] |}.

(** [forceUpdateState(props = this.props)]: the argument [props] is what
    is converted; [handleEditorChange] reads [this.props], here
    [thisProps]. *)
Definition forceUpdateState (thisProps : Props) (w : World) (props : Props)
    : Completion World :=
  '(content, store') ← lib_convertContentFrom (value props) (type props) (draftEntity w);
  updatedEditorState ← pushOf (editorState (state w)) content None;
  Normal (handleEditorChange thisProps
            {| state := state w; draftEntity := store'; notified := notified w |}
            updatedEditorState).

Definition handleKeyCommand (props : Props) (w : World) (command : string)
    : World * string :=
  let editorState := editorState (state w) in
  let newEditorStatue := RichUtils_handleKeyCommand editorState command in
  if String.eqb command "split-block" && String.eqb (type props) "html" then
    let content :=
      Modifier_splitBlock (getCurrentContent editorState) (getSelection editorState) in
    let editor := push editorState content (Some "split-block") in
    (handleEditorChange props w editor, "handled")
  else
    match newEditorStatue with
    | Some newEditorStatue => (handleEditorChange props w newEditorStatue, "handled")
    | None => (w, "not-handled")
    end.

Definition handleInlineStyleClick (props : Props) (w : World)
    (inlineStyle : string) : World :=
  if negb (editable props) then w
  else
    let editorState :=
      RichUtils_toggleInlineStyle (editorState (state w)) inlineStyle in
    handleEditorChange props w editorState.

Definition handleBlockStyleClick (props : Props) (w : World)
    (blockStyle : string) : World :=
  if negb (editable props) then w
  else
    let editorState :=
      RichUtils_toggleBlockType (editorState (state w)) blockStyle in
    handleEditorChange props w editorState.

Definition handleLinkChange (w : World) (entered : LinkState) : World :=
  {| state := {| focus := focus (state w); editorState := editorState (state w);
                 linkState := Some entered |};
     draftEntity := draftEntity w;
     notified := notified w |}.

(** The selection the link actions work on: the whole link when the
    selection is collapsed inside one. *)
Definition targetSelection (currentLink : option Link)
    (selectionState : SelectionState) : SelectionState :=
  match currentLink with
  | Some link => if isCollapsed selectionState then selection link else selectionState
  | None => selectionState
  end.

Definition handleLinkClick (props : Props) (w : World) (linkAction : string)
    : LinkClick :=
  if negb (editable props) then Finished w
  else
    let editorState := editorState (state w) in
    let selectionState := getSelection editorState in
    let currentLink := getLink (draftEntity w) editorState selectionState in
    let currentContent := getCurrentContent editorState in
    let selectionState := targetSelection currentLink selectionState in
    let pending := {| pendingEditorState := editorState;
                      pendingSelectionState := selectionState;
                      pendingCurrentLink := currentLink;
                      pendingCurrentContent := currentContent |} in
    if String.eqb linkAction "DELETE" then
      Finished
        (handleEditorChange props w
           (toggleLink (draftEntity w) editorState selectionState None))
    else if String.eqb linkAction "ADD" then
      Prompt "Add Link" "" pending
    else
      (* 'EDIT' and default, which fall through to 'ADD' *)
      match currentLink with
      | Some link => Prompt "Edit Link" (href (getData (entity link))) pending
      | None => Prompt "Add Link" "" pending
      end.

(** The callbacks of the dialog's promise.  On confirmation the dialog has
    called [handleLinkChange]; the [then] callback reads
    [this.state.linkState.href], and a [TypeError] from a missing
    [linkState] is taken by the [catch] callback, which does nothing. *)
Definition resumeLinkClick (props : Props) (w : World) (pending : Pending)
    (outcome : PromptOutcome) : World :=
  match outcome with
  | Dismissed => w
  | Confirmed entered =>
      let w := handleLinkChange w entered in
      match linkState (state w) with
      | None => w
      | Some ls =>
          let editorState := pendingEditorState pending in
          let selectionState := pendingSelectionState pending in
          let currentLink := pendingCurrentLink pending in
          let currentContent := pendingCurrentContent pending in
          let enteredHref := linkHref ls in
          if negb (String.eqb (String_trim enteredHref) "") then
            let newHref :=
              match linkify_match enteredHref with
              | Some url => url
              | None => enteredHref
              end in
            let store :=
              DraftEntity_create (draftEntity w) "LINK" "MUTABLE"
                {| href := newHref; created := "insert" |} in
            let contentWithEntity := currentContent in
            let entityKey := getLastCreatedEntityKey store in
            let editorState :=
              if currentLink is Some _
              then toggleLink store editorState selectionState None
              else editorState in
            let editorState :=
              if isCollapsed selectionState then
                let contentWithEntityText :=
                  Modifier_insertText currentContent selectionState newHref
                    (Some entityKey) in
                push editorState contentWithEntityText (Some "create-entity")
              else
                push editorState contentWithEntity (Some "create-entity") in
            let editorState :=
              toggleLink store editorState selectionState (Some entityKey) in
            handleEditorChange props
              {| state := state w; draftEntity := store; notified := notified w |}
              editorState
          else
            let editorState :=
              toggleLink (draftEntity w) editorState selectionState None in
            handleEditorChange props w editorState
      end
  end.

End Component.
End V3.

(** ** Sample collaborators and documents *)

Module Sample.

(** An engine that handles no key command, whose toggles and block split
    leave the content alone, and whose raw decoder keeps no block. *)
Definition inertEngine : DraftEngine := {|
  generateRandomKey := fun n => String (ascii_of_nat (97 + n)) "";
  RichUtils_handleKeyCommand := fun _ _ => None;
  RichUtils_toggleInlineStyle := fun es _ => es;
  RichUtils_toggleBlockType := fun es _ => es;
  Modifier_splitBlock := fun c _ => c;
  Modifier_insertText := fun c _ _ _ => c;
  decodeRawState := fun _ _ store => Normal (createFromBlockArray [], store);
  convertToRaw := fun _ _ => JS.Obj [];
  Draft_convertFromHTML := fun _ store => Normal ([], store)
|}.

(** An engine like [inertEngine] whose [Modifier.insertText] puts the text
    in at the start of the selection, each character without style and
    with the given entity, and moves the cursor behind it. *)
Definition insertText (content : ContentState) (selectionState : SelectionState)
    (text : string) (entityKey : option EntityKey) : ContentState :=
  let key := getStartKey selectionState in
  let offset := getStartOffset selectionState in
  let after :=
    {| getAnchorKey := key; getAnchorOffset := offset + String.length text;
       getFocusKey := key; getFocusOffset := offset + String.length text;
       getIsBackward := false; getHasFocus := getHasFocus selectionState |} in
  {| getBlockMap :=
       (fun block =>
          if String.eqb (getKey block) key then
            {| getKey := getKey block;
               getType := getType block;
               getText :=
                 substring 0 offset (getText block) +:+ text
                 +:+ substring offset (getLength block - offset) (getText block);
               getCharacterList :=
                 take offset (getCharacterList block)
                 ++ replicate (String.length text)
                      {| getStyle := []; getEntity := entityKey |}
                 ++ drop offset (getCharacterList block) |}
          else block) <$> getBlockMap content;
     getSelectionBefore := selectionState;
     getSelectionAfter := after |}.

Definition typingEngine : DraftEngine := {|
  generateRandomKey := fun n => String (ascii_of_nat (97 + n)) "";
  RichUtils_handleKeyCommand := fun _ _ => None;
  RichUtils_toggleInlineStyle := fun es _ => es;
  RichUtils_toggleBlockType := fun es _ => es;
  Modifier_splitBlock := fun c _ => c;
  Modifier_insertText := insertText;
  decodeRawState := fun _ _ store => Normal (createFromBlockArray [], store);
  convertToRaw := fun _ _ => JS.Obj [];
  Draft_convertFromHTML := fun _ store => Normal ([], store)
|}.

(** Converters that see no markup and no link. *)
Definition blankConverters : Converters := {|
  convertFromHTML := fun _ store => Normal (createFromBlockArray [], store);
  convertToHTML := fun _ _ => "";
  stateToHTML := fun _ _ => "";
  linkify_match := fun _ => None
|}.

(** Library functions that pass the document through; the serialised value
    is the document itself. *)
Definition passiveLib : V3.Lib := {|
  V3.lib_convertContentFrom := fun v _ store => Normal (v, store);
  V3.lib_convertContentTo := fun c _ _ => JS.Content c;
  V3.convertAllStyles := fun es _ => es;
  V3.convertStyles := fun es _ _ => es;
  V3.convertLinks := fun es store => (es, store)
|}.

(** A [trim] for texts whose characters all lie below U+0100, one
    character each: the white space among them is U+0009 to U+000D, U+0020
    and U+00A0. *)
Definition isWhiteSpace (c : ascii) : bool :=
  let n := nat_of_ascii c in
  (Nat.leb 9 n && Nat.leb n 13) || Nat.eqb n 32 || Nat.eqb n 160.

Fixpoint trimStart (chars : list ascii) : list ascii :=
  match chars with
  | c :: rest => if isWhiteSpace c then trimStart rest else chars
  | [] => []
  end.

Definition trim (s : string) : string :=
  string_of_list_ascii
    (rev (trimStart (rev (trimStart (list_ascii_of_string s))))).

Definition builtins : Builtins := {| String_trim := trim |}.

Definition emptyStore : DraftEntity := {| instances := ∅; instanceKey := 0 |}.

Definition plain : CharacterMetadata := CharacterMetadata_EMPTY.

Definition bold : CharacterMetadata :=
  {| getStyle := ["BOLD"]; getEntity := None |}.

Definition linked (key : EntityKey) : CharacterMetadata :=
  {| getStyle := []; getEntity := Some key |}.

(** One bold paragraph, "Hi". *)
Definition boldBlock : ContentBlock :=
  {| getKey := "a"; getType := "unstyled"; getText := "Hi";
     getCharacterList := [bold; bold] |}.

Definition boldDocument : ContentState := createFromBlockArray [boldBlock].

(** One paragraph, "go to x.io now", whose "x.io" is a link. *)
Definition linkBlock : ContentBlock :=
  {| getKey := "a"; getType := "unstyled"; getText := "go to x.io now";
     getCharacterList :=
       replicate 6 plain ++ replicate 4 (linked 1) ++ replicate 4 plain |}.

Definition linkDocument : ContentState := createFromBlockArray [linkBlock].

Definition linkStore : DraftEntity :=
  DraftEntity_create emptyStore "LINK" "MUTABLE"
    {| href := "http://x.io"; created := "insert" |}.

(** One paragraph, "hi @ann", whose "@ann" is a mention, an entity that is
    no link and not MUTABLE. *)
Definition mentionBlock : ContentBlock :=
  {| getKey := "a"; getType := "unstyled"; getText := "hi @ann";
     getCharacterList := replicate 3 plain ++ replicate 4 (linked 1) |}.

Definition mentionDocument : ContentState := createFromBlockArray [mentionBlock].

Definition mentionStore : DraftEntity :=
  DraftEntity_create emptyStore "MENTION" "IMMUTABLE"
    {| href := "ann"; created := "insert" |}.

Definition cursor (key : string) (offset : nat) : SelectionState :=
  {| getAnchorKey := key; getAnchorOffset := offset;
     getFocusKey := key; getFocusOffset := offset;
     getIsBackward := false; getHasFocus := true |}.

Definition props (v : JS.Value) (ty : string) (isEditable : bool) : Props :=
  {| value := v; type := ty; editable := isEditable; onlyInline := false;
     convertLinksInline := false; onChange := true |}.

(** The sticky component showing [boldDocument]. *)
Definition boldWorld : V2.World :=
  {| V2.state := {| V2.focus := false;
                    V2.editorState :=
                      {| getCurrentContent := boldDocument;
                         getSelection := SelectionState_createEmpty "a";
                         getLastChangeType := None |};
                    V2.stickyControlsStyle := None |};
     V2.draftEntity := emptyStore;
     V2.notified := [] |}.

(** The link component showing [linkDocument], the cursor inside the
    link, between "x." and "io". *)
Definition linkWorld : V3.World :=
  {| V3.state := {| V3.focus := true;
                    V3.editorState :=
                      {| getCurrentContent := linkDocument;
                         getSelection := cursor "a" 8;
                         getLastChangeType := None |};
                    V3.linkState := None |};
     V3.draftEntity := linkStore;
     V3.notified := [] |}.

End Sample.

(** ** Notions the properties are stated with *)

(** The document [ContentState.createFromText('')] builds: one unstyled
    block without text. *)
Definition emptyParagraph `{DraftEngine} : ContentState :=
  createFromBlockArray
    [ {| getKey := generateRandomKey 0; getType := "unstyled"; getText := "";
         getCharacterList := [] |} ].

(** The post-processing [handleEditorChange] of the link component applies
    to a revision before it stores it, and the value it then hands to
    [onChange]. *)
Definition processed `{V3.Lib} (props : Props) (store : DraftEntity)
    (editorState : EditorState) : EditorState * DraftEntity :=
  let styled :=
    V3.convertStyles editorState (getSelection editorState)
      (negb (onlyInline props)) in
  if convertLinksInline props then V3.convertLinks styled store
  else (styled, store).

Definition serialized `{V3.Lib} (props : Props) (store : DraftEntity)
    (editorState : EditorState) : JS.Value :=
  let r := processed props store editorState in
  V3.lib_convertContentTo (getCurrentContent r.1) (type props) r.2.

(** A sequence of editor states fed to [handleEditorChange] one after the
    other. *)
Definition feed `{V3.Lib} (props : Props) (w : V3.World)
    (edits : list EditorState) : V3.World :=
  fold_left (V3.handleEditorChange props) edits w.

(** A link span: the characters at [start], ..., [end_ - 1] of the block
    carry the entity [key], a LINK of the store, and the characters next to
    the span on either side do not. *)
Record LinkSpan (store : DraftEntity) (block : ContentBlock) (key : EntityKey)
    (start end_ : nat) : Prop := {
  span_entity :
    exists inst, DraftEntity_get store key = Some inst
                 /\ entityType inst = "LINK"%string;
  span_nonempty : start < end_;
  span_covered : forall i, start <= i < end_ -> getEntityAt block i = Some key;
  span_left : forall i, S i = start -> getEntityAt block i <> Some key;
  span_right : getEntityAt block end_ <> Some key
}.

(** A post-processing step that keeps the character metadata of every
    block, as a step that only retags block types does. *)
Definition keepsCharacters (f : EditorState -> EditorState) : Prop :=
  forall (editorState : EditorState) (key : string),
    getCharacterList <$> getBlockForKey (getCurrentContent (f editorState)) key
    = getCharacterList <$> getBlockForKey (getCurrentContent editorState) key.

(** The selection that covers the characters at [start], ..., [end_ - 1] of
    the block keyed [key]. *)
Definition rangeIn (key : string) (start end_ : nat) : SelectionState :=
  {| getAnchorKey := key; getAnchorOffset := start;
     getFocusKey := key; getFocusOffset := end_;
     getIsBackward := false; getHasFocus := false |}.

(** The position of the first block keyed [key]. *)
Fixpoint keyIndex (blocks : list ContentBlock) (key : string) : option nat :=
  match blocks with
  | [] => None
  | b :: rest =>
      if String.eqb (getKey b) key then Some 0 else S <$> keyIndex rest key
  end.

(** The character at [offset] of the [j]-th block lies in the selection:
    the block is between the selection's first and last block, and the
    offset is past the start offset in the first and before the end offset
    in the last. *)
Definition selects (blocks : list ContentBlock) (selectionState : SelectionState)
    (j offset : nat) : Prop :=
  exists first last block,
    keyIndex blocks (getStartKey selectionState) = Some first /\
    keyIndex blocks (getEndKey selectionState) = Some last /\
    blocks !! j = Some block /\
    first <= j <= last /\
    (j = first -> getStartOffset selectionState <= offset) /\
    (if decide (j = last) then offset < getEndOffset selectionState
     else offset < getLength block).

(** ** src/TextEditor.js, the link component's [render] *)

Module Toolbar.

(** The props [render] reads beside those of [Props]; the two
    [Immutable.Set]s are finite sets of names. *)
Record ToolbarProps := {
  noStyleButtons : bool;
  inlineStyles : gset string;
  blockTypes : gset string;
  placeholder : option string
}.

(** What a button's [onClick] is bound to. *)
Inductive Handler :=
| InlineStyleClick (inlineStyle : string)
| LinkClick (linkAction : string)
| BlockStyleClick (blockStyle : string).

(** A [StyleButton]: its [key], its [active] flag and its [onClick]. *)
Record Button := {
  buttonKey : string;
  active : bool;
  onClick : Handler
}.

(** What [render] returns, as far as it depends on props and state: the
    two class flags, the controls ([None] for [null]) and the [readOnly]
    and [placeholder] props of the editor. *)
Record View := {
  editableClass : bool;
  focusClass : bool;
  controls : option (list Button);
  readOnly : bool;
  shownPlaceholder : option string
}.

Section Render.
(** The tables of ./lib/InlineStyles, ./lib/BlockTypes and ./lib/LinkTypes,
    by the fields [render] reads: the [style] of each entry, and the
    [action] and [whenLink] of each link entry. *)
Variables (InlineStyles BlockTypes : list string) (LinkTypes : list (string * bool)).
(** [editorState.getCurrentInlineStyle()] of draft-js. *)
Variable getCurrentInlineStyle : EditorState -> gset string.

Definition render (props : Props) (toolbar : ToolbarProps) (w : V3.World)
    : Completion View :=
  let editorState := V3.editorState (V3.state w) in
  let selectionState := getSelection editorState in
  let currentInlineStyle := getCurrentInlineStyle editorState in
  let currentContent := getCurrentContent editorState in
  match getBlockForKey currentContent (getStartKey selectionState) with
  | None => Throw (TypeError "Cannot read property 'getType' of undefined")
  | Some block =>
      let blockType := getType block in
      let currentIsLink :=
        bool_decide (is_Some (V3.getLink (V3.draftEntity w) editorState selectionState)) in
      Normal
        {| editableClass := editable props;
           focusClass := V3.focus (V3.state w);
           controls :=
             if editable props && negb (noStyleButtons toolbar) then
               Some
                 (map (fun style =>
                         {| buttonKey := style;
                            active :=
                              getHasFocus selectionState
                              && bool_decide (style ∈ currentInlineStyle);
                            onClick := InlineStyleClick style |})
                      (filter (fun style => style ∈ inlineStyles toolbar) InlineStyles)
                  ++
                  map (fun entry : string * bool =>
                         {| buttonKey := entry.1;
                            active := getHasFocus selectionState && currentIsLink;
                            onClick := LinkClick entry.1 |})
                      (filter (fun entry : string * bool =>
                                 "LINK" ∈ inlineStyles toolbar
                                 /\ entry.2 = currentIsLink)
                              LinkTypes)
                  ++
                  (if negb (onlyInline props) then
                     map (fun style =>
                            {| buttonKey := style;
                               active := String.eqb style blockType;
                               onClick := BlockStyleClick style |})
                         (filter (fun style => style ∈ blockTypes toolbar) BlockTypes)
                   else []))
             else None;
           readOnly := negb (editable props);
           shownPlaceholder :=
             if editable props then placeholder toolbar else None |}
  end.

End Render.
End Toolbar.

(** ** Further notions *)

(** The characters of a string. *)
Definition chars (s : string) : list ascii := list_ascii_of_string s.

(** The state the sticky component is constructed with on a content whose
    first block is [first]. *)
Definition mounted (content : ContentState) (first : ContentBlock)
    (store : DraftEntity) : V2.World :=
  {| V2.state := {| V2.focus := false;
                    V2.editorState :=
                      {| getCurrentContent := content;
                         getSelection := SelectionState_createEmpty (getKey first);
                         getLastChangeType := None |};
                    V2.stickyControlsStyle := None |};
     V2.draftEntity := store;
     V2.notified := [] |}.

(** The href the link component stores for an entered one: the url of the
    first match of linkify-it, or the entered text. *)
Definition storedHref `{Converters} (enteredHref : string) : string :=
  match linkify_match enteredHref with
  | Some url => url
  | None => enteredHref
  end.

(** The entity the link component creates for an entered href. *)
Definition linkEntity `{Converters} (enteredHref : string) : DraftEntityInstance :=
  {| entityType := "LINK"; entityMutability := "MUTABLE";
     getData := {| href := storedHref enteredHref; created := "insert" |} |}.

(** The world in which the [then] callback of the link dialog sends its
    revision on, for a confirmed href that is not blank: the link state
    holds what was entered and the entity store holds the new link. *)
Definition withNewLink `{Converters} (w : V3.World) (entered : V3.LinkState)
    : V3.World :=
  {| V3.state := {| V3.focus := V3.focus (V3.state w);
                    V3.editorState := V3.editorState (V3.state w);
                    V3.linkState := Some entered |};
     V3.draftEntity :=
       DraftEntity_create (V3.draftEntity w) "LINK" "MUTABLE"
         {| href := storedHref (V3.linkHref entered); created := "insert" |};
     V3.notified := V3.notified w |}.

(** What a link action cannot change of a block: its key, type and text. *)
Definition blockShape (b : ContentBlock) : string * string * string :=
  (getKey b, getType b, getText b).

(** The link component showing the sample paragraph with the cursor at
    [offset], and with the characters from [from] to [to] selected. *)
Definition linkWorldAt (offset : nat) : V3.World :=
  {| V3.state := {| V3.focus := true;
                    V3.editorState :=
                      {| getCurrentContent := Sample.linkDocument;
                         getSelection := Sample.cursor "a" offset;
                         getLastChangeType := None |};
                    V3.linkState := None |};
     V3.draftEntity := Sample.linkStore;
     V3.notified := [] |}.

Definition linkWorldRange (from to : nat) : V3.World :=
  {| V3.state := {| V3.focus := true;
                    V3.editorState :=
                      {| getCurrentContent := Sample.linkDocument;
                         getSelection :=
                           {| getAnchorKey := "a"; getAnchorOffset := from;
                              getFocusKey := "a"; getFocusOffset := to;
                              getIsBackward := false; getHasFocus := true |};
                         getLastChangeType := None |};
                    V3.linkState := None |};
     V3.draftEntity := Sample.linkStore;
     V3.notified := [] |}.

(** The link component showing the paragraph with the mention, the cursor
    at [offset]. *)
Definition mentionWorldAt (offset : nat) : V3.World :=
  {| V3.state := {| V3.focus := true;
                    V3.editorState :=
                      {| getCurrentContent := Sample.mentionDocument;
                         getSelection := Sample.cursor "a" offset;
                         getLastChangeType := None |};
                    V3.linkState := None |};
     V3.draftEntity := Sample.mentionStore;
     V3.notified := [] |}.


(** Sample tables and toolbar props: 'LINK' is among the inline styles,
    ITALIC is not. *)
Definition sampleInlineStyles : list string := ["BOLD"; "ITALIC"; "CODE"]%string.

Definition sampleBlockTypes : list string := ["blockquote"; "header-one"]%string.

Definition sampleLinkTypes : list (string * bool) :=
  [("ADD", false); ("EDIT", true); ("DELETE", true)]%string.

Definition sampleToolbar : Toolbar.ToolbarProps :=
  {| Toolbar.noStyleButtons := false;
     Toolbar.inlineStyles := {[ "BOLD"%string; "CODE"%string; "LINK"%string ]};
     Toolbar.blockTypes := {[ "blockquote"%string ]};
     Toolbar.placeholder := Some "Write here"%string |}.

(** * Properties *)

(** ** Completions *)

Lemma throws_not_returns {A} (m : Completion A) : throws m -> ~ returns m.
Proof. intros [e ->] [a Ha]. discriminate Ha. Qed.

(** ** From the external value to the document *)

Lemma createFromText_empty `{DraftEngine} :
  createFromText generateRandomKey "" = emptyParagraph.
Proof. reflexivity. Qed.

Section FromExternal.
Context `{DraftEngine, Converters}.

(** C10: whatever the configured type, a falsy [value] makes the sticky
    component's [convertContentFrom] return one empty unstyled paragraph and
    leave the entity store alone; neither [convertFromRaw] nor
    [convertFromHTML] takes part in the result. *)
Theorem convertContentFrom_falsy (props : Props) (store : DraftEntity) :
  JS.truthy (value props) = false ->
  V2.convertContentFrom props store = Normal (JS.Content emptyParagraph, store).
Proof.
  intros Hfalsy. unfold V2.convertContentFrom.
  rewrite Hfalsy. reflexivity.
Qed.

(** The same holds of src/TextEditor.jsx. *)
Lemma jsx_falsy_value_yields_empty_paragraph (props : Props) (store : DraftEntity) :
  JS.truthy (value props) = false ->
  V1.convertContentFrom props store = Normal (JS.Content emptyParagraph, store).
Proof.
  intros Hfalsy. unfold V1.convertContentFrom.
  rewrite Hfalsy. reflexivity.
Qed.

(** The empty string, [null] and [undefined] are falsy. *)
Lemma falsy_values :
  JS.truthy (JS.Str "") = false /\ JS.truthy JS.Null = false
  /\ JS.truthy JS.Undefined = false.
Proof. repeat split. Qed.

(** [convertContentFrom] by cases on its props. *)
Lemma convertContentFrom_cases (props : Props) (store : DraftEntity) :
  V2.convertContentFrom props store =
    if negb (JS.truthy (value props)) then
      Normal (JS.Content emptyParagraph, store)
    else if String.eqb (type props) "json" then
      (fun r => (JS.Content r.1, r.2)) <$> convertFromRaw (value props) store
    else if String.eqb (type props) "html" then
      (fun r => (JS.Content r.1, r.2)) <$> convertFromHTML (value props) store
    else Normal (value props, store).
Proof.
  unfold V2.convertContentFrom.
  destruct (JS.truthy (value props)); simpl; [|reflexivity].
  destruct (String.eqb (type props) "json").
  { destruct (convertFromRaw (value props) store) as [[c s]|e]; reflexivity. }
  destruct (String.eqb (type props) "html"); [|reflexivity].
  destruct (convertFromHTML (value props) store) as [[c s]|e]; reflexivity.
Qed.

(** [convertContentFrom] raises exactly when the value is truthy and the
    parser chosen by the type raises on it. *)
Lemma convertContentFrom_throws_when (props : Props) (store : DraftEntity) :
  throws (V2.convertContentFrom props store) <->
  JS.truthy (value props) = true /\
  ((type props = "json"%string /\ throws (convertFromRaw (value props) store)) \/
   (type props <> "json"%string /\ type props = "html"%string /\
    throws (convertFromHTML (value props) store))).
Proof.
  rewrite convertContentFrom_cases.
  destruct (JS.truthy (value props)); simpl.
  2:{ split; [intros [e He]; discriminate He | intros [Ht _]; discriminate Ht]. }
  destruct (String.eqb_spec (type props) "json") as [Hjson|Hjson].
  { destruct (convertFromRaw (value props) store) as [r|e] eqn:Hraw.
    - split; [intros [e He]; discriminate He|].
      intros [_ [[_ [e He]]|[Hn _]]]; [discriminate He | contradiction].
    - split; [|intros _; exists e; reflexivity].
      intros _. split; [reflexivity|]. left. split; [assumption|].
      exists e. reflexivity. }
  destruct (String.eqb_spec (type props) "html") as [Hhtml|Hhtml].
  { destruct (convertFromHTML (value props) store) as [r|e] eqn:Hparse.
    - split; [intros [e He]; discriminate He|].
      intros [_ [[Hj _]|[_ [_ [e He]]]]]; [contradiction | discriminate He].
    - split; [|intros _; exists e; reflexivity].
      intros _. split; [reflexivity|]. right. repeat split; try assumption.
      exists e. reflexivity. }
  split; [intros [e He]; discriminate He|].
  intros [_ [[Hj _]|[_ [Hh _]]]]; contradiction.
Qed.

(** A completion either returns or raises. *)
Lemma returns_or_throws {A} (m : Completion A) : returns m \/ throws m.
Proof. destruct m as [a|e]; [left; exists a | right; exists e]; reflexivity. Qed.

(** C2, as amended: [convertContentFrom] handles no exception.  For a
    falsy value it returns a single empty paragraph; for a truthy value of
    type 'json' it returns the content [convertFromRaw] returns, and for one
    of type 'html' the content [convertFromHTML] returns; for any other
    type it returns the value unchanged.  It raises exactly when the value
    is truthy and the parser chosen by the type raises on it.  So, with an
    HTML parser that never raises, every value of a type other than 'json'
    is converted; a value of type 'json' is converted exactly when
    [convertFromRaw] accepts it. *)
Theorem convertContentFrom_outcome (props : Props) (store : DraftEntity) :
  (JS.truthy (value props) = false ->
   V2.convertContentFrom props store = Normal (JS.Content emptyParagraph, store)) /\
  (JS.truthy (value props) = true -> type props = "json"%string ->
   V2.convertContentFrom props store
     = (fun r => (JS.Content r.1, r.2)) <$> convertFromRaw (value props) store) /\
  (JS.truthy (value props) = true -> type props = "html"%string ->
   V2.convertContentFrom props store
     = (fun r => (JS.Content r.1, r.2)) <$> convertFromHTML (value props) store) /\
  (JS.truthy (value props) = true ->
   type props <> "json"%string -> type props <> "html"%string ->
   V2.convertContentFrom props store = Normal (value props, store)) /\
  (throws (V2.convertContentFrom props store) <->
   JS.truthy (value props) = true /\
   ((type props = "json"%string /\ throws (convertFromRaw (value props) store)) \/
    (type props <> "json"%string /\ type props = "html"%string /\
     throws (convertFromHTML (value props) store)))) /\
  ((forall v s, returns (convertFromHTML v s)) ->
   type props <> "json"%string ->
   returns (V2.convertContentFrom props store)) /\
  (JS.truthy (value props) = true -> type props = "json"%string ->
   (returns (V2.convertContentFrom props store)
    <-> returns (convertFromRaw (value props) store))).
Proof.
  split; [|split; [|split; [|split; [|split; [|split]]]]].
  - intros Hfalsy. rewrite convertContentFrom_cases, Hfalsy. reflexivity.
  - intros Htruthy Hjson. rewrite convertContentFrom_cases, Htruthy, Hjson.
    reflexivity.
  - intros Htruthy Hhtml. rewrite convertContentFrom_cases, Htruthy, Hhtml.
    reflexivity.
  - intros Htruthy Hjson Hhtml. apply String.eqb_neq in Hjson, Hhtml.
    rewrite convertContentFrom_cases, Htruthy, Hjson, Hhtml. reflexivity.
  - apply convertContentFrom_throws_when.
  - intros Htotal Hjson.
    destruct (returns_or_throws (V2.convertContentFrom props store))
      as [Hreturns|Hthrows]; [exact Hreturns|].
    apply convertContentFrom_throws_when in Hthrows.
    destruct Hthrows as [_ [[Hj _]|[_ [_ Hparse]]]]; [contradiction|].
    destruct (throws_not_returns _ Hparse (Htotal _ _)).
  - intros Htruthy Hjson. rewrite convertContentFrom_cases, Htruthy, Hjson.
    simpl. destruct (convertFromRaw (value props) store) as [r|e]; simpl.
    + split; intros _; eexists; reflexivity.
    + split; intros [a Ha]; discriminate Ha.
Qed.

(** The same holds of src/TextEditor.jsx, whose HTML parser is draft-js's
    own [convertFromHTML]: it hands on what the parsers return and raises
    exactly when the parser chosen by the type raises. *)
Lemma jsx_conversion_outcome (props : Props) (store : DraftEntity) :
  (JS.truthy (value props) = true -> type props = "json"%string ->
   V1.convertContentFrom props store
     = (fun r => (JS.Content r.1, r.2)) <$> convertFromRaw (value props) store) /\
  (JS.truthy (value props) = true -> type props = "html"%string ->
   V1.convertContentFrom props store
     = (fun r => (JS.Content (createFromBlockArray r.1), r.2))
         <$> Draft_convertFromHTML (value props) store) /\
  (JS.truthy (value props) = true ->
   type props <> "json"%string -> type props <> "html"%string ->
   V1.convertContentFrom props store = Normal (value props, store)) /\
  (throws (V1.convertContentFrom props store) <->
   JS.truthy (value props) = true /\
   ((type props = "json"%string /\ throws (convertFromRaw (value props) store)) \/
    (type props <> "json"%string /\ type props = "html"%string /\
     throws (Draft_convertFromHTML (value props) store)))).
Proof.
  assert (Hcases :
    V1.convertContentFrom props store =
      if negb (JS.truthy (value props)) then
        Normal (JS.Content emptyParagraph, store)
      else if String.eqb (type props) "json" then
        (fun r => (JS.Content r.1, r.2)) <$> convertFromRaw (value props) store
      else if String.eqb (type props) "html" then
        (fun r => (JS.Content (createFromBlockArray r.1), r.2))
          <$> Draft_convertFromHTML (value props) store
      else Normal (value props, store)).
  { unfold V1.convertContentFrom.
    destruct (JS.truthy (value props)); simpl; [|reflexivity].
    destruct (String.eqb (type props) "json").
    { destruct (convertFromRaw (value props) store) as [[c s]|e]; reflexivity. }
    destruct (String.eqb (type props) "html"); [|reflexivity].
    destruct (Draft_convertFromHTML (value props) store) as [[c s]|e]; reflexivity. }
  rewrite Hcases. clear Hcases.
  split; [|split; [|split]].
  - intros -> ->. reflexivity.
  - intros -> ->. reflexivity.
  - intros -> Hjson Hhtml. apply String.eqb_neq in Hjson, Hhtml.
    rewrite Hjson, Hhtml. reflexivity.
  - destruct (JS.truthy (value props)); simpl.
    2:{ split; [intros [e He]; discriminate He | intros [Ht _]; discriminate Ht]. }
    destruct (String.eqb_spec (type props) "json") as [Hjson|Hjson].
    { destruct (convertFromRaw (value props) store) as [r|e] eqn:Hraw.
      - split; [intros [e He]; discriminate He|].
        intros [_ [[_ [e He]]|[Hn _]]]; [discriminate He | contradiction].
      - split; [|intros _; exists e; reflexivity].
        intros _. split; [reflexivity|]. left. split; [assumption|].
        exists e. reflexivity. }
    destruct (String.eqb_spec (type props) "html") as [Hhtml|Hhtml].
    { destruct (Draft_convertFromHTML (value props) store) as [r|e] eqn:Hparse.
      - split; [intros [e He]; discriminate He|].
        intros [_ [[Hj _]|[_ [_ [e He]]]]]; [contradiction | discriminate He].
      - split; [|intros _; exists e; reflexivity].
        intros _. split; [reflexivity|]. right. repeat split; try assumption.
        exists e. reflexivity. }
    split; [intros [e He]; discriminate He|].
    intros [_ [[Hj _]|[_ [Hh _]]]]; contradiction.
Qed.

(** [convertFromRaw] raises on a value without an [entityMap], and on one
    whose [blocks] is no array, whatever decodes well-formed input. *)
Lemma convertFromRaw_no_entityMap (fields : list (string * JS.Value))
    (store : DraftEntity) :
  JS.assoc fields "entityMap" = JS.Undefined ->
  throws (convertFromRaw (JS.Obj fields) store).
Proof.
  intros Hmissing. unfold convertFromRaw. simpl. rewrite Hmissing.
  destruct (JS.assoc fields "blocks"); simpl; eexists; reflexivity.
Qed.

End FromExternal.

(** ** From the document to the external value *)

Section ToExternal.
Context `{DraftEngine, Converters}.

(** C9: with a type other than 'json', 'html' and 'text', the sticky
    component's [convertContentFrom] returns a truthy value itself and
    leaves the entity store alone, and [convertContentTo] returns the
    current content itself.  So a component constructed on a content [c]
    that has a block converts back to [c] (on a content without blocks
    [EditorState.createWithContent] raises), and whenever the constructor
    builds a component from a value, the component converts back to that
    value. *)
Theorem structured_round_trip (props : Props) (store : DraftEntity) :
  JS.truthy (value props) = true ->
  type props <> "json"%string ->
  type props <> "html"%string ->
  type props <> "text"%string ->
  V2.convertContentFrom props store = Normal (value props, store) /\
  (forall w : V2.World,
     V2.convertContentTo props w
       = JS.Content (getCurrentContent (V2.editorState (V2.state w)))) /\
  (forall (c : ContentState) (first : ContentBlock) (rest : list ContentBlock),
     value props = JS.Content c ->
     getBlockMap c = first :: rest ->
     exists w : V2.World,
       V2.constructor props store = Normal w /\
       V2.convertContentTo props w = value props) /\
  (forall w : V2.World,
     V2.constructor props store = Normal w ->
     V2.convertContentTo props w = value props).
Proof.
  intros Htruthy Hjson Hhtml Htext.
  apply String.eqb_neq in Hjson, Hhtml, Htext.
  assert (Hfrom : V2.convertContentFrom props store = Normal (value props, store)).
  { unfold V2.convertContentFrom. rewrite Htruthy, Hjson, Hhtml. reflexivity. }
  assert (Hto : forall w : V2.World,
     V2.convertContentTo props w
       = JS.Content (getCurrentContent (V2.editorState (V2.state w)))).
  { intros w. unfold V2.convertContentTo. rewrite Hjson, Hhtml, Htext. reflexivity. }
  split; [exact Hfrom|]. split; [exact Hto|]. split.
  - intros c first rest Hc Hblocks. unfold V2.constructor. rewrite Hfrom. simpl.
    rewrite Hc. simpl. unfold createWithContent. rewrite Hblocks. simpl.
    eexists. split; [reflexivity|].
    rewrite Hto. reflexivity.
  - intros w. unfold V2.constructor. rewrite Hfrom. simpl.
    destruct (value props) as [| |b|n| |s|items|fields|c]; simpl;
      try discriminate.
    unfold createWithContent.
    destruct (getBlockMap c) as [|first rest]; simpl; try discriminate.
    intros [= <-]. rewrite Hto. reflexivity.
Qed.

(** The same holds of src/TextEditor.jsx, which knows no 'text' type. *)
Lemma jsx_structured_value_passes_through (props : Props) (store : DraftEntity) :
  JS.truthy (value props) = true ->
  type props <> "json"%string ->
  type props <> "html"%string ->
  V1.convertContentFrom props store = Normal (value props, store) /\
  (forall w : V1.World,
     V1.convertContentTo props w
       = JS.Content (getCurrentContent (V1.editorState (V1.state w)))).
Proof.
  intros Htruthy Hjson Hhtml.
  apply String.eqb_neq in Hjson, Hhtml. split.
  - unfold V1.convertContentFrom. rewrite Htruthy, Hjson, Hhtml. reflexivity.
  - intros w. unfold V1.convertContentTo. rewrite Hjson, Hhtml. reflexivity.
Qed.

(** [convertHTMLToString] strips the tags of a string and hands back any
    other value as it is. *)
Lemma convertHTMLToString_not_a_string (v : JS.Value) :
  (forall s, v <> JS.Str s) -> V2.convertHTMLToString v = v.
Proof. intros Hv. destruct v; try reflexivity. destruct (Hv s). reflexivity. Qed.

Example convertHTMLToString_markup :
  V2.convertHTMLToString (JS.Str "<p><b>Hi</b> <a href='x.io'>there</a></p>")
    = JS.Str "Hi there".
Proof. reflexivity. Qed.

Example convertHTMLToString_open_tag :
  V2.convertHTMLToString (JS.Str "a <> b </> c <d") = JS.Str "a <> b  c ".
Proof. reflexivity. Qed.

(** C6: for the type 'text' the sticky component's [convertContentTo]
    passes the content object, not a string, to [convertHTMLToString], and
    so returns the current content itself, styles and entities included; the
    result is no string. *)
Theorem convertContentTo_text_is_content (props : Props) (w : V2.World) :
  type props = "text"%string ->
  V2.convertContentTo props w
    = JS.Content (getCurrentContent (V2.editorState (V2.state w))) /\
  (forall s : string, V2.convertContentTo props w <> JS.Str s).
Proof.
  intros Htext. unfold V2.convertContentTo. rewrite Htext. simpl.
  split; [reflexivity | discriminate].
Qed.

End ToExternal.

(** ** The session controller *)

Section Controller.
Context `{DraftEngine, Converters, V3.Lib}.

Lemma handleEditorChange_unfold (props : Props) (w : V3.World)
    (editorState : EditorState) :
  V3.handleEditorChange props w editorState =
    {| V3.state :=
         {| V3.focus := getHasFocus (getSelection editorState);
            V3.editorState := (processed props (V3.draftEntity w) editorState).1;
            V3.linkState := V3.linkState (V3.state w) |};
       V3.draftEntity := (processed props (V3.draftEntity w) editorState).2;
       V3.notified :=
         if onChange props
         then V3.notified w ++ [serialized props (V3.draftEntity w) editorState]
         else V3.notified w |}.
Proof.
  unfold V3.handleEditorChange, serialized, processed.
  destruct (convertLinksInline props); simpl.
  - destruct (V3.convertLinks _ _) as [es store]. simpl.
    destruct (onChange props); reflexivity.
  - destruct (onChange props); reflexivity.
Qed.

Lemma handleEditorChange_notified_length (props : Props) (w : V3.World)
    (editorState : EditorState) :
  onChange props = true ->
  List.length (V3.notified (V3.handleEditorChange props w editorState))
    = S (List.length (V3.notified w)).
Proof.
  intros Hcallback. rewrite handleEditorChange_unfold. simpl.
  rewrite Hcallback, length_app. simpl. lia.
Qed.

Lemma feed_notified_length (props : Props) (edits : list EditorState) :
  onChange props = true ->
  forall w : V3.World,
    List.length (V3.notified (feed props w edits))
      = List.length (V3.notified w) + List.length edits.
Proof.
  intros Hcallback. unfold feed.
  induction edits as [|editorState edits IH]; intros w; simpl; [lia|].
  rewrite IH, handleEditorChange_notified_length by assumption. lia.
Qed.

(** C1: the link component's [handleEditorChange] compares nothing.  With
    an [onChange] callback the host receives as many notifications as editor
    states were fed, one per call, whatever they carry; and with inline
    link conversion off, feeding one editor state twice notifies the host
    twice with the same value. *)
Theorem handleEditorChange_notifies_every_call (props : Props) (w : V3.World) :
  onChange props = true ->
  (forall edits : list EditorState,
     List.length (V3.notified (feed props w edits))
       = List.length (V3.notified w) + List.length edits) /\
  (forall editorState : EditorState,
     V3.notified (V3.handleEditorChange props w editorState)
       = V3.notified w ++ [serialized props (V3.draftEntity w) editorState]) /\
  (convertLinksInline props = false ->
   forall editorState : EditorState,
     V3.notified (feed props w [editorState; editorState])
       = V3.notified w ++ [serialized props (V3.draftEntity w) editorState;
                           serialized props (V3.draftEntity w) editorState]).
Proof.
  intros Hcallback.
  split; [intros edits; apply feed_notified_length, Hcallback|].
  split.
  - intros editorState. rewrite handleEditorChange_unfold. simpl.
    rewrite Hcallback. reflexivity.
  - intros Hlinks editorState. unfold feed. simpl.
    rewrite !handleEditorChange_unfold. simpl. rewrite Hcallback.
    unfold processed at 1. rewrite Hlinks. simpl.
    rewrite <- app_assoc. reflexivity.
Qed.

(** src/TextEditor.jsx: two editor states with the same content, such as
    the states before and after the cursor moves, are notified one after
    the other with the same value. *)
Lemma jsx_same_content_notified_twice (props : Props) (w : V1.World)
    (es1 es2 : EditorState) :
  onChange props = true ->
  getCurrentContent es1 = getCurrentContent es2 ->
  exists v,
    V1.notified (V1.handleEditorChange props (V1.handleEditorChange props w es1) es2)
      = V1.notified w ++ [v; v].
Proof.
  intros Hcallback Hsame. unfold V1.handleEditorChange. rewrite Hcallback. simpl.
  unfold V1.convertContentTo. simpl. rewrite Hsame, <- app_assoc. simpl.
  eexists. reflexivity.
Qed.

(** C7: [handleKeyCommand] of the link component answers "handled" or
    "not-handled".  For 'split-block' under the type 'html' it splits the
    block with [Modifier.splitBlock], sends the pushed state through
    [handleEditorChange] and answers "handled", whatever the engine's own
    handler says; in every other case it follows the engine's handler, and
    the answer is "handled" exactly when that handler yields a state. *)
Theorem handleKeyCommand_answer (props : Props) (w : V3.World) (command : string) :
  let editorState := V3.editorState (V3.state w) in
  let result := V3.handleKeyCommand props w command in
  (result.2 = "handled"%string \/ result.2 = "not-handled"%string) /\
  (command = "split-block"%string /\ type props = "html"%string ->
   result =
     (V3.handleEditorChange props w
        (push editorState
           (Modifier_splitBlock (getCurrentContent editorState)
              (getSelection editorState))
           (Some "split-block"%string)),
      "handled"%string)) /\
  (~ (command = "split-block"%string /\ type props = "html"%string) ->
   result =
     match RichUtils_handleKeyCommand editorState command with
     | Some newEditorState =>
         (V3.handleEditorChange props w newEditorState, "handled"%string)
     | None => (w, "not-handled"%string)
     end /\
   (result.2 = "handled"%string <->
    is_Some (RichUtils_handleKeyCommand editorState command))).
Proof.
  cbv zeta. unfold V3.handleKeyCommand.
  destruct (String.eqb_spec command "split-block") as [Hc|Hc];
    destruct (String.eqb_spec (type props) "html") as [Ht|Ht]; simpl.
  - split; [left; reflexivity|]. split; [reflexivity|].
    intros Hn. destruct Hn. split; assumption.
  - split.
    { destruct (RichUtils_handleKeyCommand _ _); simpl; [left|right]; reflexivity. }
    split; [intros [_ Ht']; contradiction|]. intros _. split; [reflexivity|].
    destruct (RichUtils_handleKeyCommand _ _); simpl.
    + split; [eauto | reflexivity].
    + split; [discriminate | intros [x Hx]; discriminate Hx].
  - split.
    { destruct (RichUtils_handleKeyCommand _ _); simpl; [left|right]; reflexivity. }
    split; [intros [Hc' _]; contradiction|]. intros _. split; [reflexivity|].
    destruct (RichUtils_handleKeyCommand _ _); simpl.
    + split; [eauto | reflexivity].
    + split; [discriminate | intros [x Hx]; discriminate Hx].
  - split.
    { destruct (RichUtils_handleKeyCommand _ _); simpl; [left|right]; reflexivity. }
    split; [intros [Hc' _]; contradiction|]. intros _. split; [reflexivity|].
    destruct (RichUtils_handleKeyCommand _ _); simpl.
    + split; [eauto | reflexivity].
    + split; [discriminate | intros [x Hx]; discriminate Hx].
Qed.

(** The sticky component's [handleKeyCommand] decides the same way. *)
Lemma sticky_key_command_decides_alike (props : Props) (w : V2.World) (command : string) :
  let editorState := V2.editorState (V2.state w) in
  let result := V2.handleKeyCommand props w command in
  (command = "split-block"%string /\ type props = "html"%string ->
   result =
     (V2.handleEditorChange props w
        (push editorState
           (Modifier_splitBlock (getCurrentContent editorState)
              (getSelection editorState))
           (Some "split-block"%string)),
      "handled"%string)) /\
  (~ (command = "split-block"%string /\ type props = "html"%string) ->
   result =
     match RichUtils_handleKeyCommand editorState command with
     | Some newEditorState =>
         (V2.handleEditorChange props w newEditorState, "handled"%string)
     | None => (w, "not-handled"%string)
     end).
Proof.
  cbv zeta. unfold V2.handleKeyCommand. split.
  - intros [-> ->]. reflexivity.
  - intros Hn.
    destruct (String.eqb_spec command "split-block") as [Hc|Hc];
      destruct (String.eqb_spec (type props) "html") as [Ht|Ht];
      simpl; try reflexivity.
    destruct Hn. split; assumption.
Qed.

(** C8: with [editable] off, the style toggles of the link component
    return at once: the world (editor state and its selection, focus flag,
    link state, entity store, notifications) is the one they found.  With
    [editable] on, they send the state [RichUtils.toggleInlineStyle], or
    [RichUtils.toggleBlockType], yields through [handleEditorChange]. *)
Theorem style_toggles_respect_editable (props : Props) (w : V3.World)
    (style : string) :
  (editable props = false ->
   V3.handleInlineStyleClick props w style = w /\
   V3.handleBlockStyleClick props w style = w) /\
  (editable props = true ->
   V3.handleInlineStyleClick props w style
     = V3.handleEditorChange props w
         (RichUtils_toggleInlineStyle (V3.editorState (V3.state w)) style) /\
   V3.handleBlockStyleClick props w style
     = V3.handleEditorChange props w
         (RichUtils_toggleBlockType (V3.editorState (V3.state w)) style)).
Proof.
  unfold V3.handleInlineStyleClick, V3.handleBlockStyleClick.
  split; intros ->; split; reflexivity.
Qed.

(** The same holds of src/TextEditor.jsx. *)
Lemma jsx_toggles_need_editable (props : Props) (w : V1.World)
    (style : string) :
  (editable props = false ->
   V1.handleInlineStyleClick props w style = w /\
   V1.handleBlockStyleClick props w style = w) /\
  (editable props = true ->
   V1.handleInlineStyleClick props w style
     = V1.handleEditorChange props w
         (RichUtils_toggleInlineStyle (V1.editorState (V1.state w)) style) /\
   V1.handleBlockStyleClick props w style
     = V1.handleEditorChange props w
         (RichUtils_toggleBlockType (V1.editorState (V1.state w)) style)).
Proof.
  unfold V1.handleInlineStyleClick, V1.handleBlockStyleClick.
  split; intros ->; split; reflexivity.
Qed.

End Controller.

(** ** Entities of characters *)

Lemma push_content (editorState : EditorState) (content : ContentState)
    (changeType : option string) :
  getCurrentContent (push editorState content changeType) = content.
Proof. unfold push. case_decide; [assumption | reflexivity]. Qed.

Lemma getEntityAt_Some (block : ContentBlock) (i : nat) (key : EntityKey) :
  getEntityAt block i = Some key <->
  exists c, getCharacterList block !! i = Some c /\ getEntity c = Some key.
Proof. unfold getEntityAt. apply bind_Some. Qed.

Lemma getEntityAt_cleared (block : ContentBlock) (start end_ i : nat) :
  start <= i < end_ ->
  getEntityAt (applyEntityToContentBlock block start end_ None) i = None.
Proof.
  intros Hin. unfold getEntityAt, applyEntityToContentBlock. simpl.
  rewrite list_lookup_imap.
  destruct (getCharacterList block !! i) as [c|]; simpl; [|reflexivity].
  rewrite bool_decide_eq_true_2 by assumption. reflexivity.
Qed.

Lemma getEntityAt_kept (block : ContentBlock) (start end_ i : nat)
    (entityKey : option EntityKey) :
  ~ (start <= i < end_) ->
  getEntityAt (applyEntityToContentBlock block start end_ entityKey) i
    = getEntityAt block i.
Proof.
  intros Hout. unfold getEntityAt, applyEntityToContentBlock. simpl.
  rewrite list_lookup_imap.
  destruct (getCharacterList block !! i) as [c|]; simpl; [|reflexivity].
  rewrite bool_decide_eq_false_2 by assumption. reflexivity.
Qed.

(** A selection inside one block rewrites the first block of that key. *)
Lemma findBlock_applyEntity_within (blocks : list ContentBlock) (key : string)
    (startOffset endOffset : nat) (entityKey : option EntityKey)
    (block : ContentBlock) :
  findBlock blocks key = Some block ->
  findBlock (applyEntityToBlocks blocks false key startOffset key endOffset entityKey)
    key
  = Some (applyEntityToContentBlock block startOffset endOffset entityKey).
Proof.
  induction blocks as [|b rest IH]; simpl; [discriminate|].
  destruct (String.eqb (getKey b) key) eqn:Hkey; simpl.
  - intros [= ->]. rewrite Hkey. reflexivity.
  - intros Hrest. rewrite Hkey. apply IH, Hrest.
Qed.

(** It leaves the blocks of the other keys as they are. *)
Lemma findBlock_applyEntity_other (blocks : list ContentBlock) (key other : string)
    (startOffset endOffset : nat) (entityKey : option EntityKey) :
  other <> key ->
  findBlock (applyEntityToBlocks blocks false key startOffset key endOffset entityKey)
    other
  = findBlock blocks other.
Proof.
  intros Hother.
  induction blocks as [|b rest IH]; simpl; [reflexivity|].
  destruct (String.eqb_spec (getKey b) key) as [Hkey|Hkey]; simpl.
  - destruct (String.eqb_spec (getKey b) other) as [Hb|Hb]; [congruence|reflexivity].
  - rewrite IH. reflexivity.
Qed.

(** ** Finding the link around the cursor *)

Lemma runLength_exact {A} (p : A -> bool) (l : list A) (n : nat) :
  (forall i, i < n -> exists x, l !! i = Some x /\ p x = true) ->
  (forall x, l !! n = Some x -> p x = false) ->
  V3.runLength p l = n.
Proof.
  revert n. induction l as [|a l IH]; intros n Hin Hout; simpl.
  - destruct n as [|n]; [reflexivity|].
    destruct (Hin 0) as [x [Hx _]]; [lia | discriminate Hx].
  - destruct n as [|n].
    + rewrite (Hout a eq_refl). reflexivity.
    + destruct (Hin 0) as [x [Hx Hp]]; [lia|]. injection Hx as <-.
      rewrite Hp. f_equal. apply IH.
      * intros i Hi. apply (Hin (S i)). lia.
      * intros x Hx. apply (Hout x Hx).
Qed.

Section LinkLookup.
Variables (store : DraftEntity) (block : ContentBlock) (key : EntityKey).
Variables (start end_ : nat).
Hypothesis Hspan : LinkSpan store block key start end_.

Lemma span_linkKeyAt (i : nat) :
  start <= i < end_ -> V3.linkKeyAt store block i = Some key.
Proof.
  intros Hi. unfold V3.linkKeyAt.
  rewrite (span_covered _ _ _ _ _ Hspan i Hi). simpl.
  destruct (span_entity _ _ _ _ _ Hspan) as [inst [Hinst Htype]].
  rewrite Hinst. simpl. rewrite Htype. reflexivity.
Qed.

Lemma span_within_block : end_ <= List.length (getCharacterList block).
Proof.
  destruct (span_nonempty _ _ _ _ _ Hspan).
  - assert (Hlast : getEntityAt block start = Some key)
      by (apply (span_covered _ _ _ _ _ Hspan); lia).
    apply getEntityAt_Some in Hlast as [c [Hc _]].
    apply lookup_lt_Some in Hc. lia.
  - assert (Hlast : getEntityAt block m = Some key)
      by (apply (span_covered _ _ _ _ _ Hspan); lia).
    apply getEntityAt_Some in Hlast as [c [Hc _]].
    apply lookup_lt_Some in Hc. lia.
Qed.

Lemma span_run_right (position : nat) :
  start <= position < end_ ->
  V3.runLength (V3.hasEntity key) (drop position (getCharacterList block))
    = end_ - position.
Proof.
  intros Hpos. apply runLength_exact.
  - intros i Hi. rewrite lookup_drop.
    assert (He : getEntityAt block (position + i) = Some key)
      by (apply (span_covered _ _ _ _ _ Hspan); lia).
    apply getEntityAt_Some in He as [c [Hc Hk]].
    exists c. split; [assumption|].
    unfold V3.hasEntity. apply bool_decide_eq_true_2, Hk.
  - intros c Hc. rewrite lookup_drop in Hc.
    replace (position + (end_ - position)) with end_ in Hc by lia.
    unfold V3.hasEntity. apply bool_decide_eq_false_2. intros Hk.
    apply (span_right _ _ _ _ _ Hspan).
    apply getEntityAt_Some. exists c. split; assumption.
Qed.

Lemma span_run_left (position : nat) :
  start <= position < end_ ->
  V3.runLength (V3.hasEntity key)
    (reverse (take position (getCharacterList block)))
    = position - start.
Proof.
  intros Hpos. pose proof span_within_block as Hlen.
  assert (Htake : List.length (take position (getCharacterList block)) = position)
    by (apply length_take_le; lia).
  apply runLength_exact.
  - intros i Hi. rewrite reverse_lookup by lia.
    rewrite Htake, lookup_take_lt by lia.
    assert (He : getEntityAt block (position - S i) = Some key)
      by (apply (span_covered _ _ _ _ _ Hspan); lia).
    apply getEntityAt_Some in He as [c [Hc Hk]].
    exists c. split; [assumption|].
    unfold V3.hasEntity. apply bool_decide_eq_true_2, Hk.
  - intros c Hc. apply reverse_lookup_Some in Hc as [Hc Hi].
    rewrite Htake in Hc, Hi. rewrite lookup_take_lt in Hc by lia.
    unfold V3.hasEntity. apply bool_decide_eq_false_2. intros Hk.
    apply (span_left _ _ _ _ _ Hspan (position - S (position - start))); [lia|].
    apply getEntityAt_Some. exists c. split; assumption.
Qed.

(** With the cursor before a character of the span, [getLink] resolves to
    the span's entity and to the selection of the whole span. *)
Lemma getLink_in_span (editorState : EditorState) (selectionState : SelectionState) :
  getBlockForKey (getCurrentContent editorState) (getStartKey selectionState)
    = Some block ->
  isCollapsed selectionState = true ->
  start <= getStartOffset selectionState < end_ ->
  exists inst,
    DraftEntity_get store key = Some inst /\
    V3.getLink store editorState selectionState
      = Some {| V3.entity := inst; V3.entityKey := key;
                V3.selection := rangeIn (getKey block) start end_ |}.
Proof.
  intros Hblock Hcollapsed Hpos.
  destruct (span_entity _ _ _ _ _ Hspan) as [inst [Hinst Htype]].
  exists inst. split; [assumption|].
  unfold V3.getLink. rewrite Hblock. simpl. rewrite Hcollapsed.
  rewrite (span_linkKeyAt _ Hpos). simpl.
  rewrite (span_linkKeyAt _ Hpos). simpl. rewrite Hinst. simpl.
  rewrite (span_run_right _ Hpos), (span_run_left _ Hpos).
  unfold rangeIn. do 3 f_equal; lia.
Qed.

End LinkLookup.

(** ** Clearing the entity of a selection *)

Lemma findBlock_key (blocks : list ContentBlock) (key : string) (block : ContentBlock) :
  findBlock blocks key = Some block -> getKey block = key.
Proof.
  induction blocks as [|b rest IH]; simpl; [discriminate|].
  destruct (String.eqb_spec (getKey b) key) as [Hkey|Hkey].
  - intros [= <-]. exact Hkey.
  - exact IH.
Qed.

Section ClearSelection.
Variables (startKey endKey : string) (startOffset endOffset : nat).

(** [inside] holds once the selection's first block has been passed; then
    no later block bears its key. *)
Lemma applyEntityToBlocks_clears (blocks : list ContentBlock) :
  forall (inside : bool) (j offset : nat) (block : ContentBlock),
    NoDup (getKey <$> blocks) ->
    (inside = true -> startKey ∉ getKey <$> blocks) ->
    blocks !! j = Some block ->
    (inside = true \/
     exists first, keyIndex blocks startKey = Some first /\ first <= j /\
                   (j = first -> startOffset <= offset)) ->
    (exists last, keyIndex blocks endKey = Some last /\ j <= last /\
                  if decide (j = last) then offset < endOffset
                  else offset < getLength block) ->
    exists block',
      applyEntityToBlocks blocks inside startKey startOffset endKey endOffset None
        !! j = Some block' /\
      getEntityAt block' offset = None.
Proof.
  induction blocks as [|b rest IH]; intros inside j offset block Hnodup Hpassed
    Hlookup Hfirst Hlast; [discriminate Hlookup|].
  simpl in Hnodup. apply NoDup_cons in Hnodup as [Hfresh Hnodup].
  destruct Hlast as [last [Hlast [Hle Hoffset]]].
  simpl in Hlast. simpl.
  destruct j as [|j].
  - (* the block at hand *)
    injection Hlookup as ->.
    assert (Hstart : inside || String.eqb (getKey block) startKey = true /\
                     (if String.eqb (getKey block) startKey then startOffset else 0)
                       <= offset).
    { destruct Hfirst as [->|[first [Hfirst [Hle0 Hso]]]].
      - split; [reflexivity|].
        destruct (String.eqb_spec (getKey block) startKey) as [Hk|Hk]; [|lia].
        exfalso. apply (Hpassed eq_refl). simpl. rewrite Hk. apply list_elem_of_here.
      - simpl in Hfirst.
        destruct (String.eqb (getKey block) startKey).
        + split; [apply orb_true_r|]. apply Hso. injection Hfirst as <-. reflexivity.
        + destruct (keyIndex rest startKey); simpl in Hfirst; [|discriminate].
          injection Hfirst as <-. lia. }
    destruct Hstart as [-> Hso]. eexists. split; [reflexivity|].
    apply getEntityAt_cleared. split; [exact Hso|].
    destruct (String.eqb (getKey block) endKey).
    + injection Hlast as <-. exact Hoffset.
    + destruct (keyIndex rest endKey); simpl in Hlast; [|discriminate].
      injection Hlast as <-. exact Hoffset.
  - (* a later block *)
    simpl in Hlookup.
    destruct (String.eqb (getKey b) endKey) eqn:Hend.
    { injection Hlast as <-. lia. }
    destruct (keyIndex rest endKey) as [last'|] eqn:Hlast'; simpl in Hlast;
      [|discriminate].
    injection Hlast as <-. rewrite <- Hlast' in IH.
    assert (Hlast_rest : exists last, keyIndex rest endKey = Some last /\ j <= last /\
                  if decide (j = last) then offset < endOffset
                  else offset < getLength block).
    { exists last'. split; [assumption|]. split; [lia|].
      destruct (decide (S j = S last')); destruct (decide (j = last'));
        try assumption; lia. }
    destruct (inside || String.eqb (getKey b) startKey) eqn:Hin; simpl.
    + apply (IH true j offset block Hnodup); try assumption; [|left; reflexivity].
      intros _. apply orb_true_iff in Hin as [->|Hk].
      * intros Hin. apply (Hpassed eq_refl). simpl. apply list_elem_of_further, Hin.
      * apply String.eqb_eq in Hk. rewrite <- Hk. exact Hfresh.
    + apply orb_false_iff in Hin as [-> Hk].
      apply (IH false j offset block Hnodup); try assumption; [discriminate|].
      destruct Hfirst as [Hf|[first [Hfirst [Hle0 Hso]]]]; [discriminate Hf|].
      right. simpl in Hfirst. rewrite Hk in Hfirst.
      destruct (keyIndex rest startKey) as [first'|]; simpl in Hfirst; [|discriminate].
      injection Hfirst as <-. exists first'. split; [reflexivity|].
      split; [lia|]. intros ->. apply Hso. reflexivity.
Qed.

End ClearSelection.

(** [applyEntityToContentState(content, selection, null)] leaves no entity
    on a character of the selection. *)
Lemma applyEntityToContentState_clears (content : ContentState)
    (selectionState : SelectionState) (j offset : nat) :
  NoDup (getKey <$> getBlockMap content) ->
  selects (getBlockMap content) selectionState j offset ->
  exists block',
    getBlockMap (applyEntityToContentState content selectionState None) !! j
      = Some block' /\
    getEntityAt block' offset = None.
Proof.
  intros Hnodup (first & last & block & Hfirst & Hlast & Hblock & [Hle1 Hle2] & Hso & Heo).
  unfold applyEntityToContentState. simpl.
  apply (applyEntityToBlocks_clears _ _ _ _ _ false j offset block);
    try assumption; [discriminate | |].
  - right. exists first. repeat split; assumption.
  - exists last. repeat split; assumption.
Qed.

(** ** Removing the entities at the edges of a selection *)

Lemma removeForBlock_no_entity (store : DraftEntity) (block : ContentBlock)
    (offset : nat) :
  getEntityAt block offset = None -> removeForBlock store block offset = block.
Proof. intros Hafter. unfold removeForBlock. rewrite Hafter. reflexivity. Qed.

(** The block stays as it is when the characters before and after the
    offset do not carry the same entity. *)
Lemma removeForBlock_edge (store : DraftEntity) (block : ContentBlock)
    (offset : nat) :
  (0 < offset -> getEntityAt block (offset - 1) <> getEntityAt block offset) ->
  removeForBlock store block offset = block.
Proof.
  intros Hedge. unfold removeForBlock.
  destruct (getEntityAt block offset) as [key|] eqn:Hafter; [|reflexivity].
  rewrite bool_decide_eq_false_2; [reflexivity|].
  destruct (Nat.ltb_spec 0 offset) as [Hpos|Hpos]; [|discriminate].
  apply Hedge, Hpos.
Qed.

(** It stays as it is when the entity after the offset is MUTABLE. *)
Lemma removeForBlock_mutable (store : DraftEntity) (block : ContentBlock)
    (offset : nat) (key : EntityKey) (entity : DraftEntityInstance) :
  getEntityAt block offset = Some key ->
  DraftEntity_get store key = Some entity ->
  entityMutability entity = "MUTABLE"%string ->
  removeForBlock store block offset = block.
Proof.
  intros Hafter Hentity Hmutable. unfold removeForBlock.
  rewrite Hafter. case_bool_decide; [|reflexivity].
  rewrite Hentity, Hmutable. reflexivity.
Qed.

(** [findRangesImmutable] reports a run around every element that passes
    the filter, when the filter does not tell equal elements apart. *)
Lemma findRangesFrom_covers {A} (areEqual : A -> A -> bool) (filter : A -> bool)
    (rest : list A) :
  (forall a b, areEqual a b = true -> filter a = filter b) ->
  forall (value : A) (cursor nextIndex i : nat),
    cursor <= i < nextIndex + List.length rest ->
    (i < nextIndex -> filter value = true) ->
    (forall k x, rest !! k = Some x -> nextIndex + k = i -> filter x = true) ->
    exists start end_,
      (start, end_) ∈ findRangesFrom areEqual filter value rest cursor nextIndex /\
      start <= i < end_.
Proof.
  intros Hcompatible.
  induction rest as [|nextValue rest IH]; intros value cursor nextIndex i Hi Hrun Hrest;
    simpl in *.
  - rewrite Hrun by lia. exists cursor, nextIndex.
    split; [apply list_elem_of_here | lia].
  - assert (Hnext : i < S nextIndex -> ~ i < nextIndex -> filter nextValue = true).
    { intros Hlt Hge. apply (Hrest 0 nextValue eq_refl). lia. }
    assert (Hlater : forall k x, rest !! k = Some x -> S nextIndex + k = i ->
                                 filter x = true).
    { intros k x Hx Hk. apply (Hrest (S k) x Hx). lia. }
    destruct (areEqual value nextValue) eqn:Hequal.
    + apply IH; [lia | | exact Hlater].
      intros Hlt. destruct (decide (i < nextIndex)) as [Hin|Hout].
      * rewrite <- (Hcompatible _ _ Hequal). apply Hrun, Hin.
      * apply Hnext; assumption.
    + destruct (decide (i < nextIndex)) as [Hin|Hout].
      * rewrite (Hrun Hin). exists cursor, nextIndex.
        split; [apply list_elem_of_here | lia].
      * destruct (IH nextValue nextIndex (S nextIndex) i) as (start & end_ & Hfound & Hse);
          [lia | intros Hlt; apply Hnext; assumption | exact Hlater |].
        exists start, end_. split; [|exact Hse].
        apply elem_of_app. right. exact Hfound.
Qed.

(** The run [removeForBlock] asks for exists. *)
Lemma getRemovalRange_exists (block : ContentBlock) (key : EntityKey) (offset : nat) :
  getEntityAt block offset = Some key ->
  is_Some (getRemovalRange (getCharacterList block) key offset).
Proof.
  intros Hentity. apply getEntityAt_Some in Hentity as [c [Hc Hkey]].
  unfold getRemovalRange, findRangesImmutable.
  destruct (getCharacterList block) as [|first rest] eqn:Hchars; [discriminate Hc|].
  destruct (findRangesFrom_covers
              (fun a b => bool_decide (getEntity a = getEntity b))
              (fun element => bool_decide (getEntity element = Some key))
              rest) with (value := first) (cursor := 0) (nextIndex := 1) (i := offset)
    as (start & end_ & Hfound & Hse).
  - intros a b Hequal. apply bool_decide_eq_true_1 in Hequal.
    rewrite Hequal. reflexivity.
  - apply lookup_lt_Some in Hc. simpl in Hc. lia.
  - intros Hfirst. assert (offset = 0) as -> by lia.
    injection Hc as ->. apply bool_decide_eq_true_2, Hkey.
  - intros k x Hx Hk. subst offset. simpl in Hc. rewrite Hx in Hc.
    injection Hc as ->. apply bool_decide_eq_true_2, Hkey.
  - assert (Hkept : (start, end_) ∈
      List.filter
        (fun range : nat * nat => Nat.leb range.1 offset && Nat.leb offset range.2)
        (findRangesFrom (fun a b => bool_decide (getEntity a = getEntity b))
           (fun element => bool_decide (getEntity element = Some key))
           first rest 0 1)).
    { apply list_elem_of_In, filter_In. split; [apply list_elem_of_In, Hfound|].
      simpl. apply andb_true_iff. split; apply Nat.leb_le; lia. }
    destruct (List.filter _ _) as [|range ranges] eqn:Hfiltered.
    + apply elem_of_nil in Hkept. destruct Hkept.
    + rewrite last_cons. destruct (last ranges); eauto.
Qed.

Lemma removeForBlock_key (store : DraftEntity) (block : ContentBlock) (offset : nat) :
  getKey (removeForBlock store block offset) = getKey block.
Proof.
  unfold removeForBlock.
  destruct (getEntityAt block offset) as [key|]; [|reflexivity].
  case_bool_decide; [|reflexivity].
  destruct (DraftEntity_get store key) as [entity|]; [|reflexivity].
  destruct (String.eqb (entityMutability entity) "MUTABLE"); [reflexivity|].
  destruct (getRemovalRange _ _ _) as [[start end_]|]; reflexivity.
Qed.

Lemma setBlock_same (blocks : list ContentBlock) (key : string) (block : ContentBlock) :
  findBlock blocks key = Some block -> setBlock blocks key block = blocks.
Proof.
  induction blocks as [|b rest IH]; simpl; [reflexivity|].
  destruct (String.eqb (getKey b) key).
  - intros [= ->]. reflexivity.
  - intros Hrest. rewrite IH by assumption. reflexivity.
Qed.

Lemma findBlock_setBlock (blocks : list ContentBlock) (key : string)
    (block block' : ContentBlock) :
  findBlock blocks key = Some block ->
  getKey block' = key ->
  findBlock (setBlock blocks key block') key = Some block'.
Proof.
  intros Hfound Hkey. induction blocks as [|b rest IH]; simpl in *; [discriminate|].
  destruct (String.eqb (getKey b) key) eqn:Hb; simpl.
  - rewrite Hkey, String.eqb_refl. reflexivity.
  - rewrite Hb. apply IH, Hfound.
Qed.

Lemma findBlock_setBlock_other (blocks : list ContentBlock) (key other : string)
    (block' : ContentBlock) :
  getKey block' = key ->
  other <> key ->
  findBlock (setBlock blocks key block') other = findBlock blocks other.
Proof.
  intros Hkey Hother. induction blocks as [|b rest IH]; simpl; [reflexivity|].
  destruct (String.eqb_spec (getKey b) key) as [Hb|Hb]; simpl.
  - rewrite Hkey.
    destruct (String.eqb_spec key other) as [Heq|_]; [congruence|].
    destruct (String.eqb_spec (getKey b) other) as [Heq|_]; [congruence|].
    reflexivity.
  - rewrite IH. reflexivity.
Qed.

(** What [applyEntityToContentBlock] keeps of a block, the removal of the
    entities at the edges keeps of every block. *)
Section Preserved.
Context {A : Type} (f : ContentBlock -> A).
Hypothesis applied :
  forall block start end_ entityKey,
    f (applyEntityToContentBlock block start end_ entityKey) = f block.

Lemma removeForBlock_preserves (store : DraftEntity) (block : ContentBlock)
    (offset : nat) :
  f (removeForBlock store block offset) = f block.
Proof.
  unfold removeForBlock.
  destruct (getEntityAt block offset) as [key|]; [|reflexivity].
  case_bool_decide; [|reflexivity].
  destruct (DraftEntity_get store key) as [entity|]; [|reflexivity].
  destruct (String.eqb (entityMutability entity) "MUTABLE"); [reflexivity|].
  destruct (getRemovalRange _ _ _) as [[start end_]|]; [apply applied | reflexivity].
Qed.

Lemma setBlock_preserves (blocks : list ContentBlock) (key : string)
    (block' : ContentBlock) :
  (forall block, findBlock blocks key = Some block -> f block' = f block) ->
  f <$> setBlock blocks key block' = f <$> blocks.
Proof.
  induction blocks as [|b rest IH]; [reflexivity|].
  cbn [setBlock findBlock].
  destruct (String.eqb (getKey b) key); intros Hsame; rewrite !fmap_cons.
  - rewrite (Hsame b eq_refl). reflexivity.
  - f_equal. apply IH, Hsame.
Qed.

Lemma removeEntitiesAtEdges_preserves (store : DraftEntity) (content : ContentState)
    (selectionState : SelectionState) :
  f <$> getBlockMap (removeEntitiesAtEdges store content selectionState)
    = f <$> getBlockMap content.
Proof.
  unfold removeEntitiesAtEdges.
  destruct (findBlock (getBlockMap content) (getStartKey selectionState))
    as [startBlock|] eqn:Hstart; [|reflexivity].
  pose proof (findBlock_key _ _ _ Hstart) as Hkey.
  assert (Hupdated :
    getKey (removeForBlock store startBlock (getStartOffset selectionState))
      = getStartKey selectionState)
    by (rewrite removeForBlock_key; exact Hkey).
  destruct (String.eqb_spec (getStartKey selectionState) (getEndKey selectionState))
    as [Hone|Htwo].
  - simpl. rewrite <- Hone. rewrite setBlock_preserves.
    + apply setBlock_preserves. intros block Hblock.
      rewrite Hstart in Hblock. injection Hblock as <-.
      apply removeForBlock_preserves.
    + intros block Hblock.
      rewrite (findBlock_setBlock _ _ _ _ Hstart Hupdated) in Hblock.
      injection Hblock as <-. apply removeForBlock_preserves.
  - destruct (findBlock (getBlockMap content) (getEndKey selectionState))
      as [endBlock|] eqn:Hend; [|reflexivity].
    simpl. rewrite setBlock_preserves.
    + apply setBlock_preserves. intros block Hblock.
      rewrite Hstart in Hblock. injection Hblock as <-.
      apply removeForBlock_preserves.
    + intros block Hblock.
      rewrite findBlock_setBlock_other in Hblock by (auto; congruence).
      rewrite Hend in Hblock. injection Hblock as <-.
      apply removeForBlock_preserves.
Qed.

End Preserved.

Lemma applyEntityToContentBlock_shape (block : ContentBlock) (start end_ : nat)
    (entityKey : option EntityKey) :
  blockShape (applyEntityToContentBlock block start end_ entityKey)
    = blockShape block.
Proof. reflexivity. Qed.

Lemma removeEntitiesAtEdges_shape (store : DraftEntity) (content : ContentState)
    (selectionState : SelectionState) :
  blockShape <$> getBlockMap (removeEntitiesAtEdges store content selectionState)
    = blockShape <$> getBlockMap content.
Proof. apply removeEntitiesAtEdges_preserves, applyEntityToContentBlock_shape. Qed.

Lemma shape_keys (blocks blocks' : list ContentBlock) :
  blockShape <$> blocks' = blockShape <$> blocks ->
  getKey <$> blocks' = getKey <$> blocks.
Proof.
  intros Hshape.
  apply (f_equal (fmap (fun shape : string * string * string => shape.1.1))) in Hshape.
  rewrite <- !list_fmap_compose in Hshape. exact Hshape.
Qed.

Lemma shape_keyIndex (blocks blocks' : list ContentBlock) (key : string) :
  blockShape <$> blocks' = blockShape <$> blocks ->
  keyIndex blocks' key = keyIndex blocks key.
Proof.
  revert blocks'. induction blocks as [|b rest IH]; intros [|b' rest'] Hshape;
    try discriminate Hshape; [reflexivity|].
  rewrite !fmap_cons in Hshape. injection Hshape as Hkey _ _ Hrest. simpl.
  rewrite Hkey, (IH rest' Hrest). reflexivity.
Qed.

(** A selection selects the same characters in blocks of the same shape. *)
Lemma shape_selects (blocks blocks' : list ContentBlock)
    (selectionState : SelectionState) (j offset : nat) :
  blockShape <$> blocks' = blockShape <$> blocks ->
  selects blocks selectionState j offset ->
  selects blocks' selectionState j offset.
Proof.
  intros Hshape (first & last & block & Hfirst & Hlast & Hblock & Hle & Hso & Heo).
  assert (Hj : (blockShape <$> blocks') !! j = Some (blockShape block))
    by (rewrite Hshape, list_lookup_fmap, Hblock; reflexivity).
  rewrite list_lookup_fmap in Hj.
  destruct (blocks' !! j) as [block'|] eqn:Hblock'; [|discriminate Hj].
  simpl in Hj. injection Hj as _ _ Htext.
  exists first, last, block'.
  rewrite !(shape_keyIndex _ _ _ Hshape).
  repeat split; try assumption; try apply Hle.
  unfold getLength. rewrite Htext. exact Heo.
Qed.

Lemma applyEntityToBlocks_shape (blocks : list ContentBlock) :
  forall (inside : bool) (startKey : string) (startOffset : nat) (endKey : string)
         (endOffset : nat) (entityKey : option EntityKey),
    blockShape <$>
      applyEntityToBlocks blocks inside startKey startOffset endKey endOffset entityKey
    = blockShape <$> blocks.
Proof.
  induction blocks as [|b rest IH]; intros; simpl; [reflexivity|].
  destruct (inside || String.eqb (getKey b) startKey); simpl.
  - f_equal. destruct (String.eqb (getKey b) endKey); [reflexivity | apply IH].
  - f_equal. apply IH.
Qed.

(** [Modifier.applyEntity] keeps the blocks in number and order, each with
    its key, type and text. *)
Lemma applyEntity_shape (store : DraftEntity) (content : ContentState)
    (selectionState : SelectionState) (entityKey : option EntityKey) :
  blockShape <$> getBlockMap (applyEntity store content selectionState entityKey)
    = blockShape <$> getBlockMap content.
Proof.
  unfold applyEntity, applyEntityToContentState. simpl.
  rewrite applyEntityToBlocks_shape. apply removeEntitiesAtEdges_shape.
Qed.

Lemma toggleLink_shape (store : DraftEntity) (editorState : EditorState)
    (selectionState : SelectionState) (entityKey : option EntityKey) :
  blockShape <$>
    getBlockMap
      (getCurrentContent (toggleLink store editorState selectionState entityKey))
  = blockShape <$> getBlockMap (getCurrentContent editorState).
Proof. unfold toggleLink. rewrite push_content. apply applyEntity_shape. Qed.

(** With distinct keys, a block of the list is the block of its key. *)
Lemma findBlock_lookup (blocks : list ContentBlock) (j : nat) (block : ContentBlock) :
  NoDup (getKey <$> blocks) ->
  blocks !! j = Some block ->
  findBlock blocks (getKey block) = Some block.
Proof.
  revert j. induction blocks as [|b rest IH]; intros j Hnodup Hlookup;
    [discriminate Hlookup|].
  rewrite fmap_cons in Hnodup. apply NoDup_cons in Hnodup as [Hfresh Hnodup].
  destruct j as [|j]; simpl in *.
  - injection Hlookup as ->. rewrite String.eqb_refl. reflexivity.
  - destruct (String.eqb_spec (getKey b) (getKey block)) as [Heq|_].
    + exfalso. apply Hfresh. rewrite Heq.
      apply list_elem_of_fmap_2, (list_elem_of_lookup_2 _ j), Hlookup.
    + apply (IH j); assumption.
Qed.

(** [Modifier.applyEntity(content, selection, null)] leaves no entity on a
    character of the selection. *)
Lemma applyEntity_clears (store : DraftEntity) (content : ContentState)
    (selectionState : SelectionState) (j offset : nat) :
  NoDup (getKey <$> getBlockMap content) ->
  selects (getBlockMap content) selectionState j offset ->
  exists block',
    getBlockMap (applyEntity store content selectionState None) !! j = Some block' /\
    getEntityAt block' offset = None.
Proof.
  intros Hnodup Hselects. unfold applyEntity.
  pose proof (removeEntitiesAtEdges_shape store content selectionState) as Hshape.
  apply applyEntityToContentState_clears.
  - rewrite (shape_keys _ _ Hshape). exact Hnodup.
  - apply (shape_selects _ _ _ _ _ Hshape Hselects).
Qed.

(** At the two ends of a link span the characters on either side carry
    different entities, so nothing is removed there. *)
Lemma removeEntitiesAtEdges_span (store : DraftEntity) (content : ContentState)
    (block : ContentBlock) (key : EntityKey) (start end_ : nat) :
  getBlockForKey content (getKey block) = Some block ->
  LinkSpan store block key start end_ ->
  getBlockMap (removeEntitiesAtEdges store content (rangeIn (getKey block) start end_))
    = getBlockMap content.
Proof.
  intros Hblock Hspan. unfold removeEntitiesAtEdges, rangeIn, getStartKey, getEndKey,
    getStartOffset, getEndOffset. simpl.
  unfold getBlockForKey in Hblock. rewrite Hblock, String.eqb_refl.
  assert (Hstart : removeForBlock store block start = block).
  { apply removeForBlock_edge. intros Hpos.
    rewrite (span_covered _ _ _ _ _ Hspan start)
      by (pose proof (span_nonempty _ _ _ _ _ Hspan); lia).
    apply (span_left _ _ _ _ _ Hspan). lia. }
  assert (Hend : removeForBlock store block end_ = block).
  { apply removeForBlock_edge. intros Hpos.
    rewrite (span_covered _ _ _ _ _ Hspan (end_ - 1))
      by (pose proof (span_nonempty _ _ _ _ _ Hspan); lia).
    intros Heq. apply (span_right _ _ _ _ _ Hspan). symmetry. exact Heq. }
  rewrite Hstart, Hend. simpl.
  rewrite !(setBlock_same _ _ _ Hblock). reflexivity.
Qed.

(** ** Link actions *)

(** In the revision [RichUtils.toggleLink(editorState, selection, null)]
    the block of a selected character is found under its key, and the
    character carries no entity. *)
Lemma toggleLink_clears (store : DraftEntity) (editorState : EditorState)
    (selectionState : SelectionState) (j offset : nat) (block : ContentBlock) :
  NoDup (getKey <$> getBlockMap (getCurrentContent editorState)) ->
  getBlockMap (getCurrentContent editorState) !! j = Some block ->
  selects (getBlockMap (getCurrentContent editorState)) selectionState j offset ->
  exists block',
    getBlockMap (getCurrentContent (toggleLink store editorState selectionState None))
      !! j = Some block' /\
    getBlockForKey
      (getCurrentContent (toggleLink store editorState selectionState None))
      (getKey block) = Some block' /\
    getEntityAt block' offset = None.
Proof.
  intros Hnodup Hblock Hselects.
  pose proof (toggleLink_shape store editorState selectionState None) as Hshape.
  unfold toggleLink in *. rewrite push_content in *.
  destruct (applyEntity_clears store _ _ j offset Hnodup Hselects)
    as [block' [Hblock' Hcleared]].
  exists block'. split; [exact Hblock'|]. split; [|exact Hcleared].
  assert (Hkey : getKey block' = getKey block).
  { assert (Hj : (blockShape <$>
                    getBlockMap (applyEntity store (getCurrentContent editorState)
                                   selectionState None)) !! j
                 = Some (blockShape block))
      by (rewrite Hshape, list_lookup_fmap, Hblock; reflexivity).
    rewrite list_lookup_fmap, Hblock' in Hj. simpl in Hj.
    injection Hj as Hk _ _. exact Hk. }
  rewrite <- Hkey. apply (findBlock_lookup _ j); [|exact Hblock'].
  rewrite (shape_keys _ _ Hshape). exact Hnodup.
Qed.

Section LinkActions.
Context `{DraftEngine, Converters, Builtins, V3.Lib}.

Lemma handleLinkClick_DELETE (props : Props) (w : V3.World) :
  editable props = true ->
  let editorState := V3.editorState (V3.state w) in
  let selectionState := getSelection editorState in
  V3.handleLinkClick props w "DELETE"
    = V3.Finished
        (V3.handleEditorChange props w
           (toggleLink (V3.draftEntity w) editorState
              (V3.targetSelection
                 (V3.getLink (V3.draftEntity w) editorState selectionState)
                 selectionState)
              None)).
Proof. intros Heditable. unfold V3.handleLinkClick. rewrite Heditable. reflexivity. Qed.

Lemma handleLinkClick_prompts (props : Props) (w : V3.World) (action : string) :
  editable props = true ->
  action <> "DELETE"%string ->
  let editorState := V3.editorState (V3.state w) in
  let selectionState := getSelection editorState in
  let currentLink := V3.getLink (V3.draftEntity w) editorState selectionState in
  exists title defaultUrl,
    V3.handleLinkClick props w action
      = V3.Prompt title defaultUrl
          {| V3.pendingEditorState := editorState;
             V3.pendingSelectionState := V3.targetSelection currentLink selectionState;
             V3.pendingCurrentLink := currentLink;
             V3.pendingCurrentContent := getCurrentContent editorState |}.
Proof.
  intros Heditable Haction. cbv zeta. unfold V3.handleLinkClick.
  rewrite Heditable. simpl.
  apply String.eqb_neq in Haction. rewrite Haction.
  destruct (String.eqb action "ADD"); [eauto|].
  destruct (V3.getLink _ _ _); eauto.
Qed.

(** With inline link conversion off and a [convertStyles] that keeps the
    character metadata, the block [handleEditorChange] stores under a key
    has the characters of the revision's block of that key. *)
Lemma handleEditorChange_stored_block (props : Props) (w : V3.World)
    (revision : EditorState) (key : string) (block : ContentBlock) :
  convertLinksInline props = false ->
  (forall selection allowBlock,
     keepsCharacters (fun es => V3.convertStyles es selection allowBlock)) ->
  getBlockForKey (getCurrentContent revision) key = Some block ->
  exists stored,
    getBlockForKey
      (getCurrentContent
         (V3.editorState (V3.state (V3.handleEditorChange props w revision))))
      key = Some stored /\
    getCharacterList stored = getCharacterList block.
Proof.
  intros Hlinks Hkeeps Hblock. rewrite handleEditorChange_unfold. simpl.
  unfold processed. rewrite Hlinks. simpl.
  pose proof (Hkeeps (getSelection revision) (negb (onlyInline props)) revision key)
    as Hsame.
  simpl in Hsame. rewrite Hblock in Hsame.
  destruct (getBlockForKey (getCurrentContent (V3.convertStyles _ _ _)) key)
    as [stored|];
    cbv [fmap option_fmap option_map] in Hsame; [|discriminate Hsame].
  injection Hsame as Hchars. exists stored. split; [reflexivity | exact Hchars].
Qed.

(** C3: a collapsed cursor stands before a character of a link span of its
    block.  The DELETE action then sends to [handleEditorChange], together
    with the world it found, the revision
    [RichUtils.toggleLink(editorState, span, null)]: in it the block has its
    text, no character of the whole span carries an entity, and the
    characters outside the span carry what they carried.  The entity store
    the action hands on is the one it found, so the link's record is still
    in it.  With inline link conversion off the stored world has that
    entity store, and when [convertStyles] keeps the character metadata,
    the stored block has no entity on the span either. *)
Theorem delete_link_clears_whole_span (props : Props) (w : V3.World)
    (block : ContentBlock) (key : EntityKey) (start end_ : nat) :
  let editorState := V3.editorState (V3.state w) in
  let selectionState := getSelection editorState in
  editable props = true ->
  isCollapsed selectionState = true ->
  getBlockForKey (getCurrentContent editorState) (getStartKey selectionState)
    = Some block ->
  LinkSpan (V3.draftEntity w) block key start end_ ->
  start <= getStartOffset selectionState < end_ ->
  exists revision block',
    revision
      = toggleLink (V3.draftEntity w) editorState (rangeIn (getKey block) start end_)
          None /\
    V3.handleLinkClick props w "DELETE"
      = V3.Finished (V3.handleEditorChange props w revision) /\
    getBlockForKey (getCurrentContent revision) (getKey block) = Some block' /\
    getText block' = getText block /\
    (forall i, start <= i < end_ -> getEntityAt block' i = None) /\
    (forall i, ~ (start <= i < end_) -> getEntityAt block' i = getEntityAt block i) /\
    is_Some (DraftEntity_get (V3.draftEntity w) key) /\
    (convertLinksInline props = false ->
     V3.draftEntity (V3.handleEditorChange props w revision) = V3.draftEntity w /\
     ((forall selection allowBlock,
         keepsCharacters (fun es => V3.convertStyles es selection allowBlock)) ->
      exists stored,
        getBlockForKey
          (getCurrentContent
             (V3.editorState (V3.state (V3.handleEditorChange props w revision))))
          (getKey block) = Some stored /\
        forall i, start <= i < end_ -> getEntityAt stored i = None)).
Proof.
  intros editorState selectionState Heditable Hcollapsed Hblock Hspan Hpos.
  destruct (getLink_in_span _ _ _ _ _ Hspan editorState selectionState
              Hblock Hcollapsed Hpos) as [inst [Hinst Hlink]].
  pose proof (findBlock_key _ _ _ Hblock) as Hkey.
  exists (toggleLink (V3.draftEntity w) editorState
            (rangeIn (getKey block) start end_) None).
  exists (applyEntityToContentBlock block start end_ None).
  split; [reflexivity|]. split.
  { rewrite handleLinkClick_DELETE by assumption. cbv zeta.
    fold editorState. fold selectionState.
    rewrite Hlink. unfold V3.targetSelection. simpl.
    fold selectionState. rewrite Hcollapsed. reflexivity. }
  assert (Hrevised :
    getBlockForKey
      (getCurrentContent
         (toggleLink (V3.draftEntity w) editorState
            (rangeIn (getKey block) start end_) None))
      (getKey block)
    = Some (applyEntityToContentBlock block start end_ None)).
  { rewrite <- Hkey in Hblock.
    unfold toggleLink. rewrite push_content.
    unfold getBlockForKey, applyEntity, applyEntityToContentState. simpl.
    rewrite (removeEntitiesAtEdges_span _ _ _ _ _ _ Hblock Hspan).
    unfold rangeIn, getStartKey, getEndKey, getStartOffset, getEndOffset. simpl.
    apply findBlock_applyEntity_within. exact Hblock. }
  split; [exact Hrevised|].
  split; [reflexivity|].
  split; [intros i Hi; apply getEntityAt_cleared, Hi|].
  split; [intros i Hi; apply getEntityAt_kept, Hi|].
  split; [rewrite Hinst; eauto|].
  intros Hlinks. split.
  { rewrite handleEditorChange_unfold. simpl.
    unfold processed. rewrite Hlinks. reflexivity. }
  intros Hkeeps.
  destruct (handleEditorChange_stored_block props w _ _ _ Hlinks Hkeeps Hrevised)
    as [stored [Hstored Hchars]].
  exists stored. split; [exact Hstored|].
  intros i Hi. unfold getEntityAt. rewrite Hchars.
  apply (getEntityAt_cleared block start end_ i Hi).
Qed.

(** C4: an EDIT or ADD action opens the link dialog.  When the dialog is
    confirmed with an href that [String.prototype.trim] reduces to the empty
    string (an empty one, or one of white space only), the action sends
    [RichUtils.toggleLink(editorState, selection, null)] to
    [handleEditorChange], the revision the DELETE action sends, in which no
    character of the selection carries an entity.  The component then holds
    that revision as [handleEditorChange] processes it, the entered href as
    its link state, and has notified the host when there is an [onChange]
    callback.  With inline link conversion off and a [convertStyles] that
    keeps the character metadata, the entity store is the one found and the
    stored block of every selected character carries no entity there.  When
    the dialog is dismissed the world stays as it is.  The two outcomes
    differ whenever the host is notified, whenever the link state was not
    already the entered one, and whenever a selected character carried an
    entity. *)
Theorem empty_href_deletes_link (props : Props) (w : V3.World) (action : string)
    (entered : V3.LinkState) :
  let editorState := V3.editorState (V3.state w) in
  let selectionState := getSelection editorState in
  let target :=
    V3.targetSelection
      (V3.getLink (V3.draftEntity w) editorState selectionState) selectionState in
  let revision := toggleLink (V3.draftEntity w) editorState target None in
  editable props = true ->
  action = "EDIT"%string \/ action = "ADD"%string ->
  String_trim (V3.linkHref entered) = ""%string ->
  exists title defaultUrl pending,
    V3.handleLinkClick props w action = V3.Prompt title defaultUrl pending /\
    V3.resumeLinkClick props w pending (V3.Confirmed entered)
      = V3.handleEditorChange props (V3.handleLinkChange w entered) revision /\
    V3.handleLinkClick props w "DELETE"
      = V3.Finished (V3.handleEditorChange props w revision) /\
    (forall j offset,
       NoDup (getKey <$> getBlockMap (getCurrentContent editorState)) ->
       selects (getBlockMap (getCurrentContent editorState)) target j offset ->
       exists block',
         getBlockMap (getCurrentContent revision) !! j = Some block' /\
         getEntityAt block' offset = None) /\
    V3.resumeLinkClick props w pending V3.Dismissed = w /\
    (onChange props = true ->
     V3.resumeLinkClick props w pending (V3.Confirmed entered)
       <> V3.resumeLinkClick props w pending V3.Dismissed) /\
    V3.state (V3.resumeLinkClick props w pending (V3.Confirmed entered))
      = {| V3.focus := getHasFocus (getSelection revision);
           V3.editorState := (processed props (V3.draftEntity w) revision).1;
           V3.linkState := Some entered |} /\
    V3.draftEntity (V3.resumeLinkClick props w pending (V3.Confirmed entered))
      = (processed props (V3.draftEntity w) revision).2 /\
    V3.notified (V3.resumeLinkClick props w pending (V3.Confirmed entered))
      = (if onChange props
         then V3.notified w ++ [serialized props (V3.draftEntity w) revision]
         else V3.notified w) /\
    (V3.linkState (V3.state w) <> Some entered ->
     V3.resumeLinkClick props w pending (V3.Confirmed entered)
       <> V3.resumeLinkClick props w pending V3.Dismissed) /\
    (convertLinksInline props = false ->
     (forall selection allowBlock,
        keepsCharacters (fun es => V3.convertStyles es selection allowBlock)) ->
     NoDup (getKey <$> getBlockMap (getCurrentContent editorState)) ->
     V3.draftEntity (V3.resumeLinkClick props w pending (V3.Confirmed entered))
       = V3.draftEntity w /\
     forall j offset block,
       getBlockMap (getCurrentContent editorState) !! j = Some block ->
       selects (getBlockMap (getCurrentContent editorState)) target j offset ->
       (exists stored,
          getBlockForKey
            (getCurrentContent
               (V3.editorState
                  (V3.state
                     (V3.resumeLinkClick props w pending (V3.Confirmed entered)))))
            (getKey block) = Some stored /\
          getEntityAt stored offset = None) /\
       (is_Some (getEntityAt block offset) ->
        V3.resumeLinkClick props w pending (V3.Confirmed entered)
          <> V3.resumeLinkClick props w pending V3.Dismissed)).
Proof.
  intros editorState selectionState target revision Heditable Haction Hempty.
  assert (Hnot_delete : action <> "DELETE"%string)
    by (destruct Haction as [->| ->]; discriminate).
  destruct (handleLinkClick_prompts props w action Heditable Hnot_delete)
    as [title [defaultUrl Hprompt]].
  cbv zeta in Hprompt. fold editorState selectionState target in Hprompt.
  eexists title, defaultUrl, _. split; [exact Hprompt|].
  assert (Hconfirmed :
    V3.resumeLinkClick props w
      {| V3.pendingEditorState := editorState;
         V3.pendingSelectionState := target;
         V3.pendingCurrentLink :=
           V3.getLink (V3.draftEntity w) editorState selectionState;
         V3.pendingCurrentContent := getCurrentContent editorState |}
      (V3.Confirmed entered)
    = V3.handleEditorChange props (V3.handleLinkChange w entered) revision).
  { unfold V3.resumeLinkClick. simpl. rewrite Hempty. reflexivity. }
  assert (Hdismissed :
    V3.resumeLinkClick props w
      {| V3.pendingEditorState := editorState;
         V3.pendingSelectionState := target;
         V3.pendingCurrentLink :=
           V3.getLink (V3.draftEntity w) editorState selectionState;
         V3.pendingCurrentContent := getCurrentContent editorState |}
      V3.Dismissed = w) by reflexivity.
  rewrite Hconfirmed, Hdismissed.
  split; [reflexivity|].
  split; [apply handleLinkClick_DELETE, Heditable|].
  split.
  { intros j offset Hnodup Hselects. unfold revision, toggleLink.
    rewrite push_content. apply applyEntity_clears; assumption. }
  split; [reflexivity|].
  split.
  { intros Hcallback Heq.
    apply (f_equal (fun w => List.length (V3.notified w))) in Heq.
    rewrite handleEditorChange_notified_length in Heq by assumption.
    simpl in Heq. lia. }
  rewrite handleEditorChange_unfold. simpl.
  split; [reflexivity|]. split; [reflexivity|]. split; [reflexivity|].
  split.
  { intros Hlink Heq. apply Hlink. rewrite <- Heq. reflexivity. }
  intros Hlinks Hkeeps Hnodup. split.
  { unfold processed. rewrite Hlinks. reflexivity. }
  intros j offset block Hblock Hselects.
  destruct (toggleLink_clears (V3.draftEntity w) editorState target j offset block
              Hnodup Hblock Hselects) as [block' [_ [Hrevised Hcleared]]].
  fold revision in Hrevised.
  destruct (handleEditorChange_stored_block props (V3.handleLinkChange w entered)
              _ _ _ Hlinks Hkeeps Hrevised) as [stored [Hstored Hchars]].
  rewrite handleEditorChange_unfold in Hstored. simpl in Hstored.
  assert (Hnone : getEntityAt stored offset = None).
  { unfold getEntityAt. rewrite Hchars. exact Hcleared. }
  split; [exists stored; split; assumption|].
  intros [entityKey Hentity] Heq.
  apply (f_equal (fun w => getBlockForKey
                             (getCurrentContent (V3.editorState (V3.state w)))
                             (getKey block))) in Heq.
  simpl in Heq. rewrite Hstored in Heq.
  fold editorState in Heq. unfold getBlockForKey in Heq.
  rewrite (findBlock_lookup _ j block Hnodup Hblock) in Heq.
  injection Heq as ->. congruence.
Qed.

(** C5: an ADD or EDIT action does nothing before the link dialog closes:
    a component that is not editable returns with the world it found, an
    editable one opens the dialog.  When the dialog is dismissed, the world
    of that moment (editor state, link state, entity store, notifications)
    stays as it is. *)
Theorem dismissed_prompt_changes_nothing (props : Props) (w : V3.World)
    (action : string) :
  action = "ADD"%string \/ action = "EDIT"%string ->
  (editable props = false -> V3.handleLinkClick props w action = V3.Finished w) /\
  (editable props = true ->
   exists title defaultUrl pending,
     V3.handleLinkClick props w action = V3.Prompt title defaultUrl pending /\
     forall w' : V3.World,
       V3.resumeLinkClick props w' pending V3.Dismissed = w').
Proof.
  intros Haction. split.
  - intros Heditable. unfold V3.handleLinkClick. rewrite Heditable. reflexivity.
  - intros Heditable.
    assert (Hnot_delete : action <> "DELETE"%string)
      by (destruct Haction as [->| ->]; discriminate).
    destruct (handleLinkClick_prompts props w action Heditable Hnot_delete)
      as [title [defaultUrl Hprompt]].
    eexists title, defaultUrl, _. split; [exact Hprompt|].
    intros w'. reflexivity.
Qed.

End LinkActions.

(** ** The properties on the sample documents *)

(** The sample [trim] takes off tabs, line feeds, spaces and no-break
    spaces (U+00A0). *)
Example trim_blank :
  Sample.trim "" = ""%string /\
  Sample.trim (String " " (String "009" (String "010" ""))) = ""%string /\
  Sample.trim (String "160" (String " " "")) = ""%string /\
  Sample.trim (String "160" "  x.io ") = "x.io"%string.
Proof. repeat split. Qed.

(** [getLink] on the sample paragraph: the cursor inside the link or at
    either end of it, a range that overlaps the link, and a cursor away
    from it. *)
Example getLink_on_sample :
  let editorState := V3.editorState (V3.state Sample.linkWorld) in
  let found selectionState :=
    V3.selection <$> V3.getLink Sample.linkStore editorState selectionState in
  found (Sample.cursor "a" 8) = Some (rangeIn "a" 6 10) /\
  found (Sample.cursor "a" 6) = Some (rangeIn "a" 6 10) /\
  found (Sample.cursor "a" 10) = Some (rangeIn "a" 6 10) /\
  found {| getAnchorKey := "a"; getAnchorOffset := 2;
           getFocusKey := "a"; getFocusOffset := 8;
           getIsBackward := false; getHasFocus := true |}
    = Some (rangeIn "a" 6 10) /\
  found (Sample.cursor "a" 3) = None.
Proof. repeat split. Qed.

Lemma sample_link_span :
  LinkSpan Sample.linkStore Sample.linkBlock 1 6 10.
Proof.
  split.
  - eexists. split; reflexivity.
  - lia.
  - intros i Hi.
    assert (Hcases : i = 6 \/ i = 7 \/ i = 8 \/ i = 9) by lia.
    destruct Hcases as [->|[->|[->| ->]]]; reflexivity.
  - intros i Hi. assert (i = 5) as -> by lia. discriminate.
  - discriminate.
Qed.

Lemma sample_keys_distinct :
  NoDup (getKey <$> getBlockMap Sample.linkDocument).
Proof. apply NoDup_singleton. Qed.

Lemma sample_selects_link (offset : nat) :
  6 <= offset < 10 ->
  selects (getBlockMap Sample.linkDocument) (rangeIn "a" 6 10) 0 offset.
Proof.
  intros Hoffset. exists 0, 0, Sample.linkBlock.
  split; [reflexivity|]. split; [reflexivity|]. split; [reflexivity|].
  split; [lia|]. split; [intros _; cbn; lia|].
  case_decide; [cbn; lia | congruence].
Qed.

Section OnSamples.
#[local] Existing Instance Sample.inertEngine.
#[local] Existing Instance Sample.blankConverters.
#[local] Existing Instance Sample.builtins.
#[local] Existing Instance Sample.passiveLib.

(** An empty string under the type 'json' never reaches [convertFromRaw]. *)
Lemma convertContentFrom_falsy_witness :
  JS.truthy (JS.Str "") = false /\
  V2.convertContentFrom (Sample.props (JS.Str "") "json" true) Sample.emptyStore
    = Normal (JS.Content emptyParagraph, Sample.emptyStore).
Proof.
  split; [reflexivity|].
  apply (convertContentFrom_falsy (Sample.props (JS.Str "") "json" true)).
  reflexivity.
Defined.

(** The object [{}] under the type 'json': [convertFromRaw] finds neither
    [blocks] nor an [entityMap] and raises, and [convertContentFrom], which
    handles no exception, raises with it: it returns no document, and so no
    empty paragraph. *)
Lemma convertContentFrom_malformed_json_throws :
  JS.truthy (JS.Obj []) = true /\
  throws
    (V2.convertContentFrom (Sample.props (JS.Obj []) "json" true) Sample.emptyStore) /\
  ~ returns
      (V2.convertContentFrom (Sample.props (JS.Obj []) "json" true) Sample.emptyStore) /\
  V2.convertContentFrom (Sample.props (JS.Obj []) "json" true) Sample.emptyStore
    <> Normal (JS.Content emptyParagraph, Sample.emptyStore).
Proof.
  assert (Hthrows :
    throws (V2.convertContentFrom (Sample.props (JS.Obj []) "json" true)
              Sample.emptyStore)).
  { apply convertContentFrom_throws_when. split; [reflexivity|]. left.
    split; [reflexivity|]. apply convertFromRaw_no_entityMap. reflexivity. }
  split; [reflexivity|]. split; [exact Hthrows|].
  split; [apply throws_not_returns, Hthrows|].
  intros Heq. apply (throws_not_returns _ Hthrows). eexists. exact Heq.
Qed.

(** The same props make src/TextEditor.jsx raise. *)
Example jsx_malformed_json_raises :
  throws
    (V1.convertContentFrom (Sample.props (JS.Obj []) "json" true) Sample.emptyStore).
Proof. eexists. reflexivity. Qed.

(** With the sample HTML parser, which never raises, the string "<p" under
    'html' is converted, and so is the number 5 under 'text', which comes
    back as it is; an empty array under 'json', which has no [blocks],
    makes [convertFromRaw] and with it [convertContentFrom] raise. *)
Lemma convertContentFrom_outcome_witness :
  returns
    (V2.convertContentFrom (Sample.props (JS.Str "<p") "html" true) Sample.emptyStore) /\
  V2.convertContentFrom (Sample.props (JS.Number 5) "text" true) Sample.emptyStore
    = Normal (JS.Number 5, Sample.emptyStore) /\
  throws
    (V2.convertContentFrom (Sample.props (JS.Arr []) "json" true) Sample.emptyStore).
Proof.
  split; [|split].
  - destruct (convertContentFrom_outcome (Sample.props (JS.Str "<p") "html" true)
                Sample.emptyStore) as (_ & _ & _ & _ & _ & Hhtml & _).
    apply Hhtml; [|discriminate]. intros v s. eexists. reflexivity.
  - destruct (convertContentFrom_outcome (Sample.props (JS.Number 5) "text" true)
                Sample.emptyStore) as (_ & _ & _ & Hother & _).
    apply Hother; [reflexivity | discriminate | discriminate].
  - destruct (convertContentFrom_outcome (Sample.props (JS.Arr []) "json" true)
                Sample.emptyStore) as (_ & _ & _ & _ & Hthrows & _).
    apply Hthrows. split; [reflexivity|]. left. split; [reflexivity|].
    eexists. reflexivity.
Defined.

(** A content object under the type 'Immutable' goes round unchanged. *)
Lemma structured_round_trip_witness :
  exists w : V2.World,
    V2.constructor (Sample.props (JS.Content Sample.boldDocument) "Immutable" true)
      Sample.emptyStore = Normal w /\
    V2.convertContentTo
      (Sample.props (JS.Content Sample.boldDocument) "Immutable" true) w
      = JS.Content Sample.boldDocument.
Proof.
  destruct (structured_round_trip
              (Sample.props (JS.Content Sample.boldDocument) "Immutable" true)
              Sample.emptyStore)
    as (_ & _ & Hround & _);
    [reflexivity | discriminate | discriminate | discriminate |].
  exact (Hround Sample.boldDocument Sample.boldBlock [] eq_refl eq_refl).
Defined.

(** The bold paragraph "Hi" under the type 'text': the host receives the
    content with its bold characters, not the string "Hi". *)
Lemma convertContentTo_text_witness :
  V2.convertContentTo (Sample.props JS.Null "text" true) Sample.boldWorld
    = JS.Content Sample.boldDocument /\
  V2.convertContentTo (Sample.props JS.Null "text" true) Sample.boldWorld
    <> JS.Str "Hi".
Proof.
  destruct (convertContentTo_text_is_content
              (Sample.props JS.Null "text" true) Sample.boldWorld eq_refl)
    as [Hcontent Hstring].
  split; [exact Hcontent | exact (Hstring "Hi"%string)].
Defined.

(** Feeding the link component its own editor state twice notifies the
    host twice with the same value. *)
Lemma handleEditorChange_notifies_witness :
  V3.notified
    (feed (Sample.props JS.Null "Immutable" true) Sample.linkWorld
       [V3.editorState (V3.state Sample.linkWorld);
        V3.editorState (V3.state Sample.linkWorld)])
    = [JS.Content Sample.linkDocument; JS.Content Sample.linkDocument].
Proof.
  destruct (handleEditorChange_notifies_every_call
              (Sample.props JS.Null "Immutable" true) Sample.linkWorld eq_refl)
    as (_ & _ & Htwice).
  exact (Htwice eq_refl (V3.editorState (V3.state Sample.linkWorld))).
Defined.

(** 'split-block' under 'html' is handled though the sample engine
    handles no command; under 'json' it is not. *)
Lemma handleKeyCommand_witness :
  (V3.handleKeyCommand (Sample.props JS.Null "html" true) Sample.linkWorld
     "split-block").2 = "handled"%string /\
  (V3.handleKeyCommand (Sample.props JS.Null "json" true) Sample.linkWorld
     "split-block").2 = "not-handled"%string.
Proof.
  split.
  - destruct (handleKeyCommand_answer (Sample.props JS.Null "html" true)
                Sample.linkWorld "split-block") as (_ & Hsplit & _).
    rewrite (Hsplit (conj eq_refl eq_refl)). reflexivity.
  - destruct (handleKeyCommand_answer (Sample.props JS.Null "json" true)
                Sample.linkWorld "split-block") as (_ & _ & Hother).
    destruct Hother as [Hresult _].
    + intros [_ Htype]. discriminate Htype.
    + rewrite Hresult. reflexivity.
Defined.

(** A component that is not editable ignores the BOLD button. *)
Lemma style_toggles_witness :
  V3.handleInlineStyleClick (Sample.props JS.Null "html" false) Sample.linkWorld
    "BOLD" = Sample.linkWorld /\
  V3.handleBlockStyleClick (Sample.props JS.Null "html" false) Sample.linkWorld
    "blockquote" = Sample.linkWorld.
Proof.
  split.
  - apply (style_toggles_respect_editable (Sample.props JS.Null "html" false)
             Sample.linkWorld "BOLD"). reflexivity.
  - apply (style_toggles_respect_editable (Sample.props JS.Null "html" false)
             Sample.linkWorld "blockquote"). reflexivity.
Defined.

(** DELETE with the cursor between "x." and "io": no character of "x.io"
    keeps the link, in the revision sent on and in the stored one. *)
Lemma delete_link_witness :
  LinkSpan Sample.linkStore Sample.linkBlock 1 6 10 /\
  exists revision block' stored,
    V3.handleLinkClick (Sample.props JS.Null "html" true) Sample.linkWorld "DELETE"
      = V3.Finished
          (V3.handleEditorChange (Sample.props JS.Null "html" true)
             Sample.linkWorld revision) /\
    getBlockForKey (getCurrentContent revision) "a" = Some block' /\
    (forall i, 6 <= i < 10 -> getEntityAt block' i = None) /\
    getBlockForKey
      (getCurrentContent
         (V3.editorState
            (V3.state
               (V3.handleEditorChange (Sample.props JS.Null "html" true)
                  Sample.linkWorld revision))))
      "a" = Some stored /\
    (forall i, 6 <= i < 10 -> getEntityAt stored i = None).
Proof.
  split; [exact sample_link_span|].
  destruct (delete_link_clears_whole_span (Sample.props JS.Null "html" true)
              Sample.linkWorld Sample.linkBlock 1 6 10
              eq_refl eq_refl eq_refl sample_link_span)
    as (revision & block' & _ & Hclick & Hblock & _ & Hcleared & _ & _ & Hstored).
  { vm_compute. lia. }
  destruct (Hstored eq_refl) as [_ Hkept].
  destruct Hkept as (stored & Hfound & Hnone).
  { intros selection allowBlock editorState key. reflexivity. }
  exists revision, block', stored. repeat split; assumption.
Defined.

(** EDIT confirmed with a space and a no-break space, the cursor between
    "x." and "io": the component commits the revision DELETE commits, holds
    the entered href, and its block has no entity left on the ".". *)
Lemma empty_href_witness :
  String_trim (String " " (String "160" "")) = ""%string /\
  exists title defaultUrl pending stored,
    V3.handleLinkClick (Sample.props JS.Null "html" true) Sample.linkWorld "EDIT"
      = V3.Prompt title defaultUrl pending /\
    V3.Finished
      (V3.resumeLinkClick (Sample.props JS.Null "html" true) Sample.linkWorld
         pending V3.Dismissed)
      <> V3.handleLinkClick (Sample.props JS.Null "html" true) Sample.linkWorld
           "DELETE" /\
    V3.resumeLinkClick (Sample.props JS.Null "html" true) Sample.linkWorld pending
      (V3.Confirmed {| V3.linkHref := String " " (String "160" "") |})
      <> V3.resumeLinkClick (Sample.props JS.Null "html" true) Sample.linkWorld
           pending V3.Dismissed /\
    V3.linkState
      (V3.state
         (V3.resumeLinkClick (Sample.props JS.Null "html" true) Sample.linkWorld
            pending
            (V3.Confirmed {| V3.linkHref := String " " (String "160" "") |})))
      = Some {| V3.linkHref := String " " (String "160" "") |} /\
    getBlockForKey
      (getCurrentContent
         (V3.editorState
            (V3.state
               (V3.resumeLinkClick (Sample.props JS.Null "html" true)
                  Sample.linkWorld pending
                  (V3.Confirmed {| V3.linkHref := String " " (String "160" "") |})))))
      "a" = Some stored /\
    getEntityAt stored 7 = None /\
    getEntityAt Sample.linkBlock 7 = Some 1.
Proof.
  split; [reflexivity|].
  destruct (empty_href_deletes_link (Sample.props JS.Null "html" true)
              Sample.linkWorld "EDIT"
              {| V3.linkHref := String " " (String "160" "") |})
    as (title & defaultUrl & pending & Hprompt & _ & Hdelete & _ & Hdismissed
        & Hdiffer & Hstate & _ & _ & _ & Hstored);
    [reflexivity | left; reflexivity | reflexivity |].
  destruct Hstored as [_ Hselected]; [reflexivity | | exact sample_keys_distinct |].
  { intros selection allowBlock editorState key. reflexivity. }
  destruct (Hselected 0 7 Sample.linkBlock eq_refl) as [(stored & Hfound & Hnone) _].
  { apply (sample_selects_link 7). lia. }
  exists title, defaultUrl, pending, stored.
  split; [exact Hprompt|].
  split; [rewrite Hdismissed, Hdelete; discriminate|].
  split; [exact (Hdiffer eq_refl)|].
  split; [rewrite Hstate; reflexivity|].
  split; [exact Hfound|]. split; [exact Hnone | reflexivity].
Defined.

(** ADD, then the dialog dismissed. *)
Lemma dismissed_prompt_witness :
  exists title defaultUrl pending,
    V3.handleLinkClick (Sample.props JS.Null "html" true) Sample.linkWorld "ADD"
      = V3.Prompt title defaultUrl pending /\
    V3.resumeLinkClick (Sample.props JS.Null "html" true) Sample.linkWorld pending
      V3.Dismissed = Sample.linkWorld.
Proof.
  destruct (dismissed_prompt_changes_nothing (Sample.props JS.Null "html" true)
              Sample.linkWorld "ADD" (or_introl eq_refl))
    as [_ Hprompt].
  destruct (Hprompt eq_refl) as (title & defaultUrl & pending & Hclick & Hsame).
  exists title, defaultUrl, pending.
  split; [exact Hclick | apply Hsame].
Defined.

End OnSamples.

(** * Further properties *)

(** ** Stripping tags *)

Lemma stripTags_stable (l : list ascii) :
  forall inTag : bool,
    V2.stripTags (V2.stripTags l inTag) false = V2.stripTags l inTag.
Proof.
  induction l as [|c rest IH]; intros inTag; [reflexivity|].
  destruct inTag; simpl.
  - destruct (Ascii.eqb c ">"); apply IH.
  - destruct (Ascii.eqb c "<") eqn:Hopen.
    + destruct rest as [|c' rest']; [simpl; rewrite Hopen; reflexivity|].
      destruct (Ascii.eqb c' ">") eqn:Hclose; [|apply IH].
      pose proof (IH false) as IHrest. simpl in IHrest.
      apply Ascii.eqb_eq in Hclose. subst c'. simpl in IHrest.
      simpl. rewrite Hopen. simpl. f_equal. exact IHrest.
    + simpl. rewrite Hopen. f_equal. apply IH.
Qed.

(** X1: [convertHTMLToString] leaves nothing for a second pass: applied to
    its own result it returns that result. *)
Theorem convertHTMLToString_idempotent (v : JS.Value) :
  V2.convertHTMLToString (V2.convertHTMLToString v) = V2.convertHTMLToString v.
Proof.
  destruct v; try reflexivity. simpl.
  rewrite list_ascii_of_string_of_list_ascii, stripTags_stable. reflexivity.
Qed.

Lemma stripTags_sublist (l : list ascii) :
  forall inTag : bool, V2.stripTags l inTag `sublist_of` l.
Proof.
  induction l as [|c rest IH]; intros inTag; [reflexivity|].
  destruct inTag; simpl.
  - destruct (Ascii.eqb c ">"); apply sublist_cons, IH.
  - destruct (Ascii.eqb c "<").
    + destruct rest as [|c' rest']; [reflexivity|].
      destruct (Ascii.eqb c' ">").
      * apply sublist_skip, IH.
      * apply sublist_cons, IH.
    + apply sublist_skip, IH.
Qed.

Lemma stripTags_no_open (l : list ascii) :
  "<"%char ∉ l -> V2.stripTags l false = l.
Proof.
  induction l as [|c rest IH]; intros Hno; [reflexivity|].
  simpl. apply not_elem_of_cons in Hno as [Hc Hrest].
  destruct (Ascii.eqb_spec c "<") as [Heq|_]; [congruence|].
  f_equal. apply IH, Hrest.
Qed.

Lemma length_of_chars (l : list ascii) :
  String.length (string_of_list_ascii l) = List.length l.
Proof. induction l as [|c rest IH]; simpl; [reflexivity | f_equal; exact IH]. Qed.

(** X2: [convertHTMLToString] only removes characters: the characters of
    the result are a subsequence of those of the string, so the result is
    never longer, and a string without '<' comes back unchanged. *)
Theorem convertHTMLToString_only_removes (s : string) :
  exists s' : string,
    V2.convertHTMLToString (JS.Str s) = JS.Str s' /\
    chars s' `sublist_of` chars s /\
    String.length s' <= String.length s /\
    ("<"%char ∉ chars s -> s' = s).
Proof.
  eexists. split; [reflexivity|]. unfold chars.
  rewrite list_ascii_of_string_of_list_ascii.
  pose proof (stripTags_sublist (list_ascii_of_string s) false) as Hsub.
  split; [exact Hsub|]. split.
  - apply sublist_length in Hsub.
    rewrite <- (string_of_list_ascii_of_string s) at 2.
    rewrite !length_of_chars. exact Hsub.
  - intros Hno. rewrite stripTags_no_open by assumption.
    apply string_of_list_ascii_of_string.
Qed.

Lemma stripTags_inside_unclosed (l : list ascii) :
  ">"%char ∉ l -> V2.stripTags l true = [].
Proof.
  induction l as [|c rest IH]; intros Hno; [reflexivity|].
  simpl. apply not_elem_of_cons in Hno as [Hc Hrest].
  destruct (Ascii.eqb_spec c ">") as [Heq|_]; [congruence|].
  apply IH, Hrest.
Qed.

(** X3: a '<' that is followed by a character other than '>' and by no
    '>' at all takes everything after it along: of text without '<', then
    such a '<' and the rest, [convertHTMLToString] keeps the text before the
    '<'. *)
Theorem convertHTMLToString_unclosed_tag (before rest : list ascii) (c : ascii) :
  "<"%char ∉ before ->
  c <> ">"%char ->
  ">"%char ∉ rest ->
  V2.convertHTMLToString
    (JS.Str (string_of_list_ascii (before ++ "<"%char :: c :: rest)))
  = JS.Str (string_of_list_ascii before).
Proof.
  intros Hbefore Hc Hrest. simpl. do 2 f_equal.
  rewrite list_ascii_of_string_of_list_ascii.
  induction before as [|b before IH]; simpl.
  - destruct (Ascii.eqb_spec c ">") as [Heq|_]; [congruence|].
    apply stripTags_inside_unclosed. exact Hrest.
  - apply not_elem_of_cons in Hbefore as [Hb Hbefore].
    destruct (Ascii.eqb_spec b "<") as [Heq|_]; [congruence|].
    f_equal. apply IH, Hbefore.
Qed.

(** ** The sample trim *)

Lemma trimStart_nil_iff (l : list ascii) :
  Sample.trimStart l = [] <-> Forall (fun c => Sample.isWhiteSpace c = true) l.
Proof.
  induction l as [|c rest IH]; simpl.
  - split; [constructor | reflexivity].
  - destruct (Sample.isWhiteSpace c) eqn:Hc.
    + rewrite IH. split.
      * intros Hrest. constructor; assumption.
      * intros Hall. apply Forall_cons in Hall as [_ Hrest]. exact Hrest.
    + split; [discriminate|].
      intros Hall. apply Forall_cons in Hall as [Hc' _]. congruence.
Qed.

Lemma trimStart_head (l : list ascii) (c : ascii) (rest : list ascii) :
  Sample.trimStart l = c :: rest -> Sample.isWhiteSpace c = false.
Proof.
  induction l as [|a l IH]; simpl; [discriminate|].
  destruct (Sample.isWhiteSpace a) eqn:Ha; [exact IH|].
  intros [= <- _]. exact Ha.
Qed.

(** The sample trim reduces a text to the empty string exactly when each of
    its characters is white space. *)
Lemma sample_trim_blank_iff (s : string) :
  Sample.trim s = ""%string
  <-> Forall (fun c => Sample.isWhiteSpace c = true) (chars s).
Proof.
  unfold Sample.trim, chars. rewrite <- trimStart_nil_iff.
  set (l := Sample.trimStart (list_ascii_of_string s)).
  split.
  - intros Hempty.
    destruct (rev (Sample.trimStart (rev l))) as [|c r] eqn:Hrev;
      [|discriminate Hempty].
    apply (f_equal (@rev ascii)) in Hrev. rewrite rev_involutive in Hrev.
    simpl in Hrev. apply trimStart_nil_iff in Hrev.
    destruct l as [|c rest] eqn:Hl; [reflexivity|].
    pose proof (trimStart_head _ _ _ Hl) as Hc.
    rewrite Forall_forall in Hrev. specialize (Hrev c).
    rewrite Hrev in Hc; [discriminate Hc|].
    apply list_elem_of_In. apply -> in_rev. left. reflexivity.
  - intros ->. reflexivity.
Qed.

(** ** Mounting and resetting the sticky component *)

Section Mounting.
Context `{DraftEngine, Converters}.

(** X5: the sticky component's constructor succeeds exactly when
    [convertContentFrom] returns a content object that has a block; the
    component then shows that content unfocused, with an empty selection on
    the first block, without sticky style, with the entity store the
    converter left, and the host has not been notified.  On a content
    without blocks the constructor raises. *)
Theorem constructor_returns_iff (props : Props) (store : DraftEntity) (w : V2.World) :
  (V2.constructor props store = Normal w <->
   exists (c : ContentState) (store' : DraftEntity) (first : ContentBlock)
          (rest : list ContentBlock),
     V2.convertContentFrom props store = Normal (JS.Content c, store') /\
     getBlockMap c = first :: rest /\
     w = mounted c first store') /\
  (forall (c : ContentState) (store' : DraftEntity),
     V2.convertContentFrom props store = Normal (JS.Content c, store') ->
     getBlockMap c = [] ->
     throws (V2.constructor props store)).
Proof.
  unfold V2.constructor. split.
  - destruct (V2.convertContentFrom props store) as [[v store']|e]; simpl.
    + destruct v; simpl; split;
        try discriminate;
        try (intros (c' & s' & first & rest & Heq & _); discriminate Heq).
      * unfold createWithContent.
        destruct (getBlockMap c) as [|first rest] eqn:Hblocks; simpl;
          [discriminate|].
        intros [= <-]. exists c, store', first, rest. repeat split; assumption.
      * intros (c' & s' & first & rest & [= <- <-] & Hblocks & ->).
        unfold createWithContent. rewrite Hblocks. reflexivity.
    + split; [discriminate|].
      intros (c' & s' & first & rest & Heq & _). discriminate Heq.
  - intros c store' -> Hblocks. simpl. unfold createWithContent.
    rewrite Hblocks. eexists. reflexivity.
Qed.


(** X7: under a type other than 'json' and 'html', a truthy value that is
    no content object (a string under 'text', say) is handed to draft-js as
    it is: the constructor raises, and so does [forceUpdateState] called
    with such props, whatever the component's own props are. *)
Theorem plain_value_cannot_mount (props : Props) (store : DraftEntity) :
  JS.truthy (value props) = true ->
  type props <> "json"%string ->
  type props <> "html"%string ->
  (forall c : ContentState, value props <> JS.Content c) ->
  throws (V2.constructor props store) /\
  forall (thisProps : Props) (w : V2.World),
    throws (V2.forceUpdateState thisProps w props).
Proof.
  intros Htruthy Hjson Hhtml Hplain.
  apply String.eqb_neq in Hjson, Hhtml.
  assert (Hfrom : forall s, V2.convertContentFrom props s = Normal (value props, s)).
  { intros s. unfold V2.convertContentFrom. rewrite Htruthy, Hjson, Hhtml. reflexivity. }
  split.
  - unfold V2.constructor. rewrite Hfrom. simpl.
    destruct (value props) as [| |b|n| |s|items|fields|c]; simpl;
      try (eexists; reflexivity).
    destruct (Hplain c). reflexivity.
  - intros thisProps w. unfold V2.forceUpdateState. rewrite Hfrom. simpl.
    destruct (value props) as [| |b|n| |s|items|fields|c]; simpl;
      try (eexists; reflexivity).
    destruct (Hplain c). reflexivity.
Qed.

End Mounting.

(** ** Applying an entity to a selection *)

Lemma applyEntityToContentBlock_empty (block : ContentBlock) (offset : nat)
    (entityKey : option EntityKey) :
  applyEntityToContentBlock block offset offset entityKey = block.
Proof.
  destruct block as [k t x cs]. unfold applyEntityToContentBlock. simpl. f_equal.
  apply list_eq. intros i. rewrite list_lookup_imap.
  destruct (cs !! i) as [c|]; simpl; [|reflexivity].
  rewrite bool_decide_eq_false_2 by lia. reflexivity.
Qed.

Lemma applyEntityToBlocks_collapsed (blocks : list ContentBlock) (key : string)
    (offset : nat) (entityKey : option EntityKey) :
  applyEntityToBlocks blocks false key offset key offset entityKey = blocks.
Proof.
  induction blocks as [|b rest IH]; simpl; [reflexivity|].
  destruct (String.eqb (getKey b) key); simpl.
  - rewrite applyEntityToContentBlock_empty. reflexivity.
  - rewrite IH. reflexivity.
Qed.

Lemma collapsed_same_ends (selectionState : SelectionState) :
  isCollapsed selectionState = true ->
  getStartKey selectionState = getEndKey selectionState /\
  getStartOffset selectionState = getEndOffset selectionState.
Proof.
  unfold isCollapsed, getStartKey, getEndKey, getStartOffset, getEndOffset.
  intros Hc. apply andb_true_iff in Hc as [Hk Ho].
  apply String.eqb_eq in Hk. apply Nat.eqb_eq in Ho.
  destruct (getIsBackward selectionState); split; congruence.
Qed.

Lemma applyEntityToContentState_collapsed (content : ContentState)
    (selectionState : SelectionState) (entityKey : option EntityKey) :
  isCollapsed selectionState = true ->
  getBlockMap (applyEntityToContentState content selectionState entityKey)
    = getBlockMap content.
Proof.
  intros Hc. destruct (collapsed_same_ends _ Hc) as [Hk Ho].
  unfold applyEntityToContentState. simpl. rewrite <- Hk, <- Ho.
  apply applyEntityToBlocks_collapsed.
Qed.

(** At a collapsed selection whose block loses no entity around the
    cursor, nothing is removed. *)
Lemma removeEntitiesAtEdges_collapsed (store : DraftEntity) (content : ContentState)
    (selectionState : SelectionState) (block : ContentBlock) :
  isCollapsed selectionState = true ->
  getBlockForKey content (getStartKey selectionState) = Some block ->
  removeForBlock store block (getStartOffset selectionState) = block ->
  getBlockMap (removeEntitiesAtEdges store content selectionState)
    = getBlockMap content.
Proof.
  intros Hc Hblock Hkept. destruct (collapsed_same_ends _ Hc) as [Hk Ho].
  unfold removeEntitiesAtEdges. unfold getBlockForKey in Hblock.
  rewrite <- Hk, <- Ho, Hblock, String.eqb_refl, !Hkept. simpl.
  rewrite !(setBlock_same _ _ _ Hblock). reflexivity.
Qed.

Lemma applyEntity_collapsed (store : DraftEntity) (content : ContentState)
    (selectionState : SelectionState) (entityKey : option EntityKey)
    (block : ContentBlock) :
  isCollapsed selectionState = true ->
  getBlockForKey content (getStartKey selectionState) = Some block ->
  removeForBlock store block (getStartOffset selectionState) = block ->
  getBlockMap (applyEntity store content selectionState entityKey)
    = getBlockMap content.
Proof.
  intros Hc Hblock Hkept. unfold applyEntity.
  rewrite applyEntityToContentState_collapsed by assumption.
  apply (removeEntitiesAtEdges_collapsed _ _ _ block); assumption.
Qed.


Section ApplySelection.
Variables (startKey endKey : string) (startOffset endOffset : nat).
Variable entityKey : option EntityKey.


End ApplySelection.




(** ** Further link actions *)

Section MoreLinkActions.
Context `{DraftEngine, Converters, Builtins, V3.Lib}.

(** The revision the [then] callback builds for an href that is not
    blank. *)
Lemma resumeLinkClick_confirmed_href (props : Props) (w : V3.World)
    (editorState : EditorState) (target : SelectionState)
    (currentLink : option V3.Link) (currentContent : ContentState)
    (entered : V3.LinkState) :
  String_trim (V3.linkHref entered) <> ""%string ->
  let newKey := S (instanceKey (V3.draftEntity w)) in
  let store := V3.draftEntity (withNewLink w entered) in
  V3.resumeLinkClick props w
    {| V3.pendingEditorState := editorState;
       V3.pendingSelectionState := target;
       V3.pendingCurrentLink := currentLink;
       V3.pendingCurrentContent := currentContent |}
    (V3.Confirmed entered)
  = V3.handleEditorChange props (withNewLink w entered)
      (toggleLink store
         (push
            (if currentLink is Some _ then toggleLink store editorState target None
             else editorState)
            (if isCollapsed target
             then Modifier_insertText currentContent target
                    (storedHref (V3.linkHref entered)) (Some newKey)
             else currentContent)
            (Some "create-entity"%string))
         target (Some newKey)).
Proof.
  intros Hfilled. apply String.eqb_neq in Hfilled.
  unfold V3.resumeLinkClick. simpl. rewrite Hfilled. simpl.
  unfold withNewLink, storedHref. simpl.
  destruct (isCollapsed target); reflexivity.
Qed.

(** X8: what the link dialog opens with.  ADD opens it as "Add Link" with
    an empty href even when the cursor is in a link; EDIT, and any action
    other than DELETE and ADD, opens it as "Edit Link" with the href of the
    link [getLink] finds, and as "Add Link" with an empty href when there is
    none. *)
Theorem link_dialog_prefill (props : Props) (w : V3.World) (action : string) :
  editable props = true ->
  action <> "DELETE"%string ->
  let editorState := V3.editorState (V3.state w) in
  let currentLink :=
    V3.getLink (V3.draftEntity w) editorState (getSelection editorState) in
  exists pending,
    V3.handleLinkClick props w action =
      match currentLink with
      | Some link =>
          if String.eqb action "ADD" then V3.Prompt "Add Link" "" pending
          else V3.Prompt "Edit Link" (href (getData (V3.entity link))) pending
      | None => V3.Prompt "Add Link" "" pending
      end.
Proof.
  intros Heditable Haction. cbv zeta. unfold V3.handleLinkClick.
  rewrite Heditable. simpl.
  apply String.eqb_neq in Haction. rewrite Haction.
  exists {| V3.pendingEditorState := V3.editorState (V3.state w);
            V3.pendingSelectionState :=
              V3.targetSelection
                (V3.getLink (V3.draftEntity w) (V3.editorState (V3.state w))
                   (getSelection (V3.editorState (V3.state w))))
                (getSelection (V3.editorState (V3.state w)));
            V3.pendingCurrentLink :=
              V3.getLink (V3.draftEntity w) (V3.editorState (V3.state w))
                (getSelection (V3.editorState (V3.state w)));
            V3.pendingCurrentContent :=
              getCurrentContent (V3.editorState (V3.state w)) |}.
  destruct (V3.getLink _ _ _); destruct (String.eqb action "ADD"); reflexivity.
Qed.

(** X9: a confirmed href that [String.prototype.trim] does not reduce to
    the empty string always registers a new entity, also on EDIT: with
    inline link conversion off, the store afterwards holds
    under the next key a mutable LINK whose href is the url linkify-it makes
    of the entered text (the text itself when linkify-it finds no link), and
    every record it held before, the edited link's among them, is as it
    was.  The entered href stays in the link state. *)
Theorem confirmed_href_registers_entity (props : Props) (w : V3.World)
    (action : string) (entered : V3.LinkState) :
  editable props = true ->
  action <> "DELETE"%string ->
  String_trim (V3.linkHref entered) <> ""%string ->
  convertLinksInline props = false ->
  exists title defaultUrl pending,
    V3.handleLinkClick props w action = V3.Prompt title defaultUrl pending /\
    let w' := V3.resumeLinkClick props w pending (V3.Confirmed entered) in
    let newKey := S (instanceKey (V3.draftEntity w)) in
    instanceKey (V3.draftEntity w') = newKey /\
    DraftEntity_get (V3.draftEntity w') newKey
      = Some (linkEntity (V3.linkHref entered)) /\
    (forall key, key <> newKey ->
       DraftEntity_get (V3.draftEntity w') key
         = DraftEntity_get (V3.draftEntity w) key) /\
    V3.linkState (V3.state w') = Some entered.
Proof.
  intros Heditable Haction Hfilled Hlinks.
  destruct (handleLinkClick_prompts props w action Heditable Haction)
    as [title [defaultUrl Hprompt]].
  eexists title, defaultUrl, _. split; [exact Hprompt|]. cbv zeta.
  rewrite resumeLinkClick_confirmed_href by assumption. cbv zeta.
  rewrite handleEditorChange_unfold. simpl.
  unfold processed. rewrite Hlinks. simpl.
  unfold DraftEntity_get, DraftEntity_create. simpl.
  split; [reflexivity|]. split; [apply lookup_insert_eq|].
  split; [|reflexivity].
  intros key Hkey. apply lookup_insert_ne. congruence.
Qed.


(** X11: with a collapsed cursor outside any link, a confirmed href that
    [String.prototype.trim] does not reduce to the empty string is inserted
    by [Modifier.insertText]: the stored href, not the text as entered,
    goes in at the cursor under the new entity.  When in the content so made
    the character after the cursor carries the new entity, as the first
    character inserted does, the revision sent on has exactly the blocks
    [Modifier.insertText] made: the new entity is MUTABLE, so applying it
    to the collapsed selection afterwards removes nothing at the cursor and
    changes no block. *)
Theorem confirmed_href_inserts_text (props : Props) (w : V3.World)
    (action : string) (entered : V3.LinkState) (insertedBlock : ContentBlock) :
  let editorState := V3.editorState (V3.state w) in
  let selectionState := getSelection editorState in
  let newKey := S (instanceKey (V3.draftEntity w)) in
  let inserted :=
    Modifier_insertText (getCurrentContent editorState) selectionState
      (storedHref (V3.linkHref entered)) (Some newKey) in
  editable props = true ->
  action <> "DELETE"%string ->
  String_trim (V3.linkHref entered) <> ""%string ->
  isCollapsed selectionState = true ->
  V3.getLink (V3.draftEntity w) editorState selectionState = None ->
  getBlockForKey inserted (getStartKey selectionState) = Some insertedBlock ->
  getEntityAt insertedBlock (getStartOffset selectionState) = Some newKey ->
  exists title defaultUrl pending revision,
    V3.handleLinkClick props w action = V3.Prompt title defaultUrl pending /\
    V3.resumeLinkClick props w pending (V3.Confirmed entered)
      = V3.handleEditorChange props (withNewLink w entered) revision /\
    getBlockMap (getCurrentContent revision) = getBlockMap inserted.
Proof.
  intros editorState selectionState newKey inserted Heditable Haction Hfilled
    Hcollapsed Hnone Hblock Hentity.
  destruct (handleLinkClick_prompts props w action Heditable Haction)
    as [title [defaultUrl Hprompt]].
  cbv zeta in Hprompt. fold editorState selectionState in Hprompt.
  rewrite Hnone in Hprompt. simpl in Hprompt.
  eexists title, defaultUrl, _, _. split; [exact Hprompt|].
  split.
  { rewrite resumeLinkClick_confirmed_href by assumption. reflexivity. }
  cbv zeta. rewrite Hcollapsed.
  unfold toggleLink. rewrite !push_content.
  apply (applyEntity_collapsed _ _ _ _ insertedBlock); try assumption.
  apply (removeForBlock_mutable _ _ _ newKey (linkEntity (V3.linkHref entered)));
    [exact Hentity | | reflexivity].
  unfold withNewLink, DraftEntity_get, DraftEntity_create. simpl.
  apply lookup_insert_eq.
Qed.

(** X12: DELETE with a collapsed cursor, no link around it and no entity
    on the character after it sends on a revision with the blocks of the
    current content, character metadata included; the host is notified all
    the same. *)
Theorem delete_without_link (props : Props) (w : V3.World) (block : ContentBlock) :
  let editorState := V3.editorState (V3.state w) in
  let selectionState := getSelection editorState in
  editable props = true ->
  isCollapsed selectionState = true ->
  V3.getLink (V3.draftEntity w) editorState selectionState = None ->
  getBlockForKey (getCurrentContent editorState) (getStartKey selectionState)
    = Some block ->
  getEntityAt block (getStartOffset selectionState) = None ->
  exists revision,
    V3.handleLinkClick props w "DELETE"
      = V3.Finished (V3.handleEditorChange props w revision) /\
    getBlockMap (getCurrentContent revision)
      = getBlockMap (getCurrentContent editorState) /\
    (onChange props = true ->
     List.length
       (V3.notified (V3.handleEditorChange props w revision))
     = S (List.length (V3.notified w))).
Proof.
  intros editorState selectionState Heditable Hcollapsed Hnone Hblock Hentity.
  eexists. split.
  { rewrite handleLinkClick_DELETE by assumption. cbv zeta.
    fold editorState selectionState. rewrite Hnone. reflexivity. }
  split.
  - unfold toggleLink. rewrite push_content. simpl.
    apply (applyEntity_collapsed _ _ _ _ block); try assumption.
    apply removeForBlock_no_entity, Hentity.
  - intros Hcallback. apply handleEditorChange_notified_length, Hcallback.
Qed.

(** X13: whatever the selection and whether or not a link is found, the
    revision DELETE sends on has the blocks of the current content in number
    and order, each with its key, type and text. *)
Theorem delete_keeps_text (props : Props) (w : V3.World) :
  editable props = true ->
  exists revision,
    V3.handleLinkClick props w "DELETE"
      = V3.Finished (V3.handleEditorChange props w revision) /\
    blockShape <$> getBlockMap (getCurrentContent revision)
      = blockShape <$> getBlockMap (getCurrentContent (V3.editorState (V3.state w))).
Proof.
  intros Heditable. eexists. split.
  - apply handleLinkClick_DELETE, Heditable.
  - apply toggleLink_shape.
Qed.

End MoreLinkActions.

(** ** What the change pipeline leaves alone *)

Section Frame.
Context `{DraftEngine, Converters, V3.Lib}.

Lemma feed_cons (props : Props) (w : V3.World) (editorState : EditorState)
    (edits : list EditorState) :
  feed props w (editorState :: edits)
  = feed props (V3.handleEditorChange props w editorState) edits.
Proof. reflexivity. Qed.

(** X14: however many editor states are fed to the link component's
    [handleEditorChange], the link state stays what it was, with inline
    link conversion off the entity store stays too, and the focus flag is
    the one of the selection of the last state fed, read before that state
    is post-processed. *)
Theorem feed_frame (props : Props) (edits : list EditorState) :
  forall w : V3.World,
    V3.linkState (V3.state (feed props w edits)) = V3.linkState (V3.state w) /\
    (convertLinksInline props = false ->
     V3.draftEntity (feed props w edits) = V3.draftEntity w) /\
    (forall editorState,
       last edits = Some editorState ->
       V3.focus (V3.state (feed props w edits))
         = getHasFocus (getSelection editorState)).
Proof.
  induction edits as [|e edits IH]; intros w.
  - repeat split. intros editorState Hlast. discriminate Hlast.
  - rewrite feed_cons.
    destruct (IH (V3.handleEditorChange props w e)) as (Hlink & Hstore & Hfocus).
    split; [|split].
    + rewrite Hlink, handleEditorChange_unfold. reflexivity.
    + intros Hlinks. rewrite (Hstore Hlinks), handleEditorChange_unfold. simpl.
      unfold processed. rewrite Hlinks. reflexivity.
    + intros editorState Hlast. destruct edits as [|e' edits].
      * injection Hlast as <-. unfold feed. simpl.
        rewrite handleEditorChange_unfold. reflexivity.
      * apply Hfocus. exact Hlast.
Qed.

(** X15: a key command the link component answers with "not-handled"
    leaves the world as it is; one it answers with "handled" notifies the
    host exactly once when there is an [onChange] callback, and not at all
    when there is none. *)
Theorem handleKeyCommand_effect (props : Props) (w : V3.World) (command : string) :
  let result := V3.handleKeyCommand props w command in
  (result.2 = "not-handled"%string -> result.1 = w) /\
  (result.2 = "handled"%string ->
   List.length (V3.notified result.1)
     = if onChange props then S (List.length (V3.notified w))
       else List.length (V3.notified w)).
Proof.
  assert (Hcount : forall editorState,
    List.length (V3.notified (V3.handleEditorChange props w editorState))
      = if onChange props then S (List.length (V3.notified w))
        else List.length (V3.notified w)).
  { intros editorState. rewrite handleEditorChange_unfold. simpl.
    destruct (onChange props); [|reflexivity].
    rewrite length_app. simpl. lia. }
  cbv zeta. unfold V3.handleKeyCommand.
  destruct (String.eqb command "split-block" && String.eqb (type props) "html").
  - simpl. split; [discriminate|]. intros _. apply Hcount.
  - destruct (RichUtils_handleKeyCommand _ _); simpl.
    + split; [discriminate|]. intros _. apply Hcount.
    + split; [reflexivity | discriminate].
Qed.

End Frame.

(** ** The toolbar *)

Section ToolbarProperties.
Variables (InlineStyles BlockTypes : list string) (LinkTypes : list (string * bool)).
Variable getCurrentInlineStyle : EditorState -> gset string.

#[local] Abbreviation render :=
  (Toolbar.render InlineStyles BlockTypes LinkTypes getCurrentInlineStyle).

(** X16: [render] raises exactly when the selection starts in no block of
    the content.  When it returns, the controls are left out exactly when
    the component is not editable or [noStyleButtons] is set, the editor is
    read-only exactly when the component is not editable, and a component
    that is not editable shows no placeholder. *)
Theorem render_controls (props : Props) (toolbar : Toolbar.ToolbarProps)
    (w : V3.World) :
  let editorState := V3.editorState (V3.state w) in
  (throws (render props toolbar w) <->
   getBlockForKey (getCurrentContent editorState)
     (getStartKey (getSelection editorState)) = None) /\
  (forall view,
     render props toolbar w = Normal view ->
     (Toolbar.controls view = None <->
      editable props = false \/ Toolbar.noStyleButtons toolbar = true) /\
     Toolbar.readOnly view = negb (editable props) /\
     (editable props = false -> Toolbar.shownPlaceholder view = None)).
Proof.
  cbv zeta. unfold Toolbar.render.
  destruct (getBlockForKey _ _) as [block|].
  - split.
    { split; [intros [e He]; discriminate He | discriminate]. }
    intros view [= <-]. simpl. split; [|split].
    + destruct (editable props), (Toolbar.noStyleButtons toolbar); simpl;
        split; intros Hd; try discriminate Hd; try reflexivity;
        try (destruct Hd as [Hd|Hd]; discriminate Hd); auto.
    + reflexivity.
    + intros ->. reflexivity.
  - split.
    { split; [reflexivity | intros _; eexists; reflexivity]. }
    intros view Hview. discriminate Hview.
Qed.

(** X17: each button [render] shows is backed by its table and by the
    props.  An inline style button is for a style of the table that
    [inlineStyles] holds, and is active only with focus and the style
    current; a link button appears only when [inlineStyles] holds 'LINK',
    is for a table entry whose [whenLink] says whether the selection is in a
    link, and is active exactly with focus in a link; a block button appears
    only without [onlyInline], is for a type of the table that [blockTypes]
    holds, and is active exactly for the type of the selection's block. *)
Theorem render_buttons (props : Props) (toolbar : Toolbar.ToolbarProps)
    (w : V3.World) (view : Toolbar.View) (buttons : list Toolbar.Button)
    (block : ContentBlock) :
  let editorState := V3.editorState (V3.state w) in
  let selectionState := getSelection editorState in
  let currentIsLink :=
    bool_decide (is_Some (V3.getLink (V3.draftEntity w) editorState selectionState)) in
  render props toolbar w = Normal view ->
  Toolbar.controls view = Some buttons ->
  getBlockForKey (getCurrentContent editorState) (getStartKey selectionState)
    = Some block ->
  Forall
    (fun button =>
       match Toolbar.onClick button with
       | Toolbar.InlineStyleClick style =>
           Toolbar.buttonKey button = style /\
           style ∈ InlineStyles /\
           style ∈ Toolbar.inlineStyles toolbar /\
           (Toolbar.active button = true ->
            getHasFocus selectionState = true /\
            style ∈ getCurrentInlineStyle editorState)
       | Toolbar.LinkClick action =>
           Toolbar.buttonKey button = action /\
           (action, currentIsLink) ∈ LinkTypes /\
           "LINK"%string ∈ Toolbar.inlineStyles toolbar /\
           Toolbar.active button = getHasFocus selectionState && currentIsLink
       | Toolbar.BlockStyleClick style =>
           Toolbar.buttonKey button = style /\
           style ∈ BlockTypes /\
           style ∈ Toolbar.blockTypes toolbar /\
           onlyInline props = false /\
           (Toolbar.active button = true <-> style = getType block)
       end)
    buttons.
Proof.
  intros editorState selectionState currentIsLink Hview Hcontrols Hblock.
  unfold Toolbar.render in Hview.
  fold editorState selectionState in Hview. rewrite Hblock in Hview.
  injection Hview as <-. simpl in Hcontrols.
  destruct (editable props && negb (Toolbar.noStyleButtons toolbar));
    [|discriminate Hcontrols].
  injection Hcontrols as <-.
  apply Forall_app. split; [|apply Forall_app; split].
  - apply List.Forall_map. apply Forall_forall. intros style Hstyle.
    apply list_elem_of_filter in Hstyle as [Hallowed Htable]. simpl.
    split; [reflexivity|]. split; [exact Htable|]. split; [exact Hallowed|].
    intros Hactive. apply andb_true_iff in Hactive as [Hfocus Hcurrent].
    split; [exact Hfocus|]. apply bool_decide_eq_true in Hcurrent. exact Hcurrent.
  - apply List.Forall_map. apply Forall_forall. intros [action whenLink] Hentry.
    apply list_elem_of_filter in Hentry as [[Hlink Hwhen] Htable]. simpl in *.
    fold editorState selectionState currentIsLink in Hwhen |- *.
    subst whenLink. repeat split; assumption.
  - destruct (onlyInline props) eqn:Honly; simpl; [constructor|].
    apply List.Forall_map. apply Forall_forall. intros style Hstyle.
    apply list_elem_of_filter in Hstyle as [Hallowed Htable]. simpl.
    repeat split; try assumption.
    + intros Hactive. apply String.eqb_eq, Hactive.
    + intros ->. apply String.eqb_refl.
Qed.

End ToolbarProperties.

(** ** The further properties on the sample documents *)

Section FurtherSamples.
#[local] Existing Instance Sample.inertEngine.
#[local] Existing Instance Sample.blankConverters.
#[local] Existing Instance Sample.builtins.
#[local] Existing Instance Sample.passiveLib.

(** "1 < 2" loses everything from the '<' on. *)
Lemma convertHTMLToString_unclosed_tag_witness :
  V2.convertHTMLToString (JS.Str "1 < 2") = JS.Str "1 ".
Proof.
  apply (convertHTMLToString_unclosed_tag
           (list_ascii_of_string "1 ") (list_ascii_of_string "2") " "%char).
  - vm_compute. intros Hin.
    repeat (apply elem_of_cons in Hin as [Hin|Hin]; [discriminate Hin|]).
    apply elem_of_nil in Hin. exact Hin.
  - discriminate.
  - vm_compute. intros Hin.
    repeat (apply elem_of_cons in Hin as [Hin|Hin]; [discriminate Hin|]).
    apply elem_of_nil in Hin. exact Hin.
Defined.

(** The constructor mounts the bold paragraph and raises on a content
    without blocks. *)
Lemma constructor_returns_iff_witness :
  V2.constructor (Sample.props (JS.Content Sample.boldDocument) "Immutable" true)
    Sample.emptyStore
    = Normal (mounted Sample.boldDocument Sample.boldBlock Sample.emptyStore) /\
  throws
    (V2.constructor
       (Sample.props (JS.Content (createFromBlockArray [])) "Immutable" true)
       Sample.emptyStore).
Proof.
  split.
  - apply (constructor_returns_iff
             (Sample.props (JS.Content Sample.boldDocument) "Immutable" true)
             Sample.emptyStore).
    exists Sample.boldDocument, Sample.emptyStore, Sample.boldBlock, [].
    repeat split.
  - destruct (constructor_returns_iff
                (Sample.props (JS.Content (createFromBlockArray [])) "Immutable" true)
                Sample.emptyStore
                (mounted Sample.boldDocument Sample.boldBlock Sample.emptyStore))
      as [_ Hraises].
    apply (Hraises (createFromBlockArray []) Sample.emptyStore); reflexivity.
Defined.


(** The string "Hello" under the type 'text'. *)
Lemma plain_value_cannot_mount_witness :
  throws (V2.constructor (Sample.props (JS.Str "Hello") "text" true)
            Sample.emptyStore) /\
  throws (V2.forceUpdateState (Sample.props JS.Null "html" true) Sample.boldWorld
            (Sample.props (JS.Str "Hello") "text" true)).
Proof.
  destruct (plain_value_cannot_mount (Sample.props (JS.Str "Hello") "text" true)
              Sample.emptyStore)
    as [Hmount Hreset]; try discriminate; [reflexivity|].
  split; [exact Hmount | apply Hreset].
Defined.

(** ADD with the cursor inside the link "x.io" opens an empty dialog; EDIT
    opens it on the link's href. *)
Lemma link_dialog_prefill_witness :
  (exists pending,
     V3.handleLinkClick (Sample.props JS.Null "html" true) Sample.linkWorld "ADD"
       = V3.Prompt "Add Link" "" pending) /\
  (exists pending,
     V3.handleLinkClick (Sample.props JS.Null "html" true) Sample.linkWorld "EDIT"
       = V3.Prompt "Edit Link" "http://x.io" pending).
Proof.
  split.
  - destruct (link_dialog_prefill (Sample.props JS.Null "html" true)
                Sample.linkWorld "ADD" eq_refl) as [pending Hclick];
      [discriminate|].
    exists pending. exact Hclick.
  - destruct (link_dialog_prefill (Sample.props JS.Null "html" true)
                Sample.linkWorld "EDIT" eq_refl) as [pending Hclick];
      [discriminate|].
    exists pending. exact Hclick.
Defined.

(** EDIT confirmed with "y.io": the store gets a second record and keeps
    the first. *)
Lemma confirmed_href_registers_entity_witness :
  String_trim "y.io" = "y.io"%string /\
  exists title defaultUrl pending,
    V3.handleLinkClick (Sample.props JS.Null "html" true) Sample.linkWorld "EDIT"
      = V3.Prompt title defaultUrl pending /\
    DraftEntity_get
      (V3.draftEntity
         (V3.resumeLinkClick (Sample.props JS.Null "html" true) Sample.linkWorld
            pending (V3.Confirmed {| V3.linkHref := "y.io" |})))
      2
    = Some (linkEntity "y.io") /\
    DraftEntity_get
      (V3.draftEntity
         (V3.resumeLinkClick (Sample.props JS.Null "html" true) Sample.linkWorld
            pending (V3.Confirmed {| V3.linkHref := "y.io" |})))
      1
    = DraftEntity_get Sample.linkStore 1.
Proof.
  split; [reflexivity|].
  destruct (confirmed_href_registers_entity (Sample.props JS.Null "html" true)
              Sample.linkWorld "EDIT" {| V3.linkHref := "y.io" |} eq_refl)
    as (title & defaultUrl & pending & Hclick & _ & Hnew & Hold & _);
    try discriminate; [reflexivity|].
  exists title, defaultUrl, pending.
  split; [exact Hclick|]. split; [exact Hnew|].
  apply Hold. discriminate.
Defined.


(** DELETE with the cursor in "go". *)
Lemma delete_without_link_witness :
  exists revision,
    V3.handleLinkClick (Sample.props JS.Null "html" true) (linkWorldAt 1) "DELETE"
      = V3.Finished
          (V3.handleEditorChange (Sample.props JS.Null "html" true)
             (linkWorldAt 1) revision) /\
    getBlockMap (getCurrentContent revision) = [Sample.linkBlock] /\
    List.length
      (V3.notified
         (V3.handleEditorChange (Sample.props JS.Null "html" true)
            (linkWorldAt 1) revision)) = 1.
Proof.
  destruct (delete_without_link (Sample.props JS.Null "html" true) (linkWorldAt 1)
              Sample.linkBlock eq_refl eq_refl eq_refl eq_refl eq_refl)
    as (revision & Hclick & Hblocks & Hnotified).
  exists revision. split; [exact Hclick|]. split; [exact Hblocks|].
  exact (Hnotified eq_refl).
Defined.

(** DELETE with the cursor inside the mention "@ann", which is no link:
    [getLink] finds nothing, and still the revision sent on has lost the
    mention, which [Modifier.applyEntity] removes at the edges of the
    selection because it is not MUTABLE. *)
Example delete_inside_immutable_entity :
  V3.getLink Sample.mentionStore (V3.editorState (V3.state (mentionWorldAt 5)))
    (Sample.cursor "a" 5) = None /\
  getEntityAt Sample.mentionBlock 4 = Some 1 /\
  exists revision block',
    V3.handleLinkClick (Sample.props JS.Null "html" true) (mentionWorldAt 5) "DELETE"
      = V3.Finished
          (V3.handleEditorChange (Sample.props JS.Null "html" true)
             (mentionWorldAt 5) revision) /\
    getBlockForKey (getCurrentContent revision) "a" = Some block' /\
    getText block' = "hi @ann"%string /\
    getCharacterList block' = replicate 7 Sample.plain.
Proof.
  split; [reflexivity|]. split; [reflexivity|].
  eexists _, _. split; [reflexivity|]. split; [reflexivity|].
  split; reflexivity.
Qed.

(** DELETE with "to x." selected. *)
Lemma delete_keeps_text_witness :
  exists revision,
    V3.handleLinkClick (Sample.props JS.Null "html" true) (linkWorldRange 3 8)
      "DELETE"
      = V3.Finished
          (V3.handleEditorChange (Sample.props JS.Null "html" true)
             (linkWorldRange 3 8) revision) /\
    blockShape <$> getBlockMap (getCurrentContent revision)
      = [("a", "unstyled", "go to x.io now")%string].
Proof.
  destruct (delete_keeps_text (Sample.props JS.Null "html" true)
              (linkWorldRange 3 8) eq_refl)
    as (revision & Hclick & Hshape).
  exists revision. split; [exact Hclick | exact Hshape].
Defined.

(** With the cursor inside the link, the toolbar offers no ADD button. *)
Lemma render_buttons_witness :
  exists view buttons,
    Toolbar.render sampleInlineStyles sampleBlockTypes sampleLinkTypes
      (fun _ => ∅) (Sample.props JS.Null "html" true) sampleToolbar
      Sample.linkWorld = Normal view /\
    Toolbar.controls view = Some buttons /\
    Forall (fun button => Toolbar.onClick button <> Toolbar.LinkClick "ADD")
      buttons.
Proof.
  eexists _, _. split; [reflexivity|]. split; [reflexivity|].
  eapply Forall_impl.
  - exact (render_buttons sampleInlineStyles sampleBlockTypes sampleLinkTypes
             (fun _ => ∅) (Sample.props JS.Null "html" true) sampleToolbar
             Sample.linkWorld _ _ Sample.linkBlock eq_refl eq_refl eq_refl).
  - intros button Hbutton Hadd. cbv beta zeta in Hbutton. rewrite Hadd in Hbutton.
    destruct Hbutton as (_ & Hentry & _).
    vm_compute in Hentry.
    repeat (apply elem_of_cons in Hentry as [Hentry|Hentry];
            [discriminate Hentry|]).
    apply elem_of_nil in Hentry. exact Hentry.
Defined.

End FurtherSamples.

Section TypingSamples.
#[local] Existing Instance Sample.typingEngine.
#[local] Existing Instance Sample.blankConverters.
#[local] Existing Instance Sample.builtins.
#[local] Existing Instance Sample.passiveLib.

(** ADD confirmed with "y.io", the cursor in "go": the paragraph reads
    "gy.ioo to x.io now", and the four characters put in carry the new
    entity. *)
Lemma confirmed_href_inserts_text_witness :
  exists title defaultUrl pending revision,
    V3.handleLinkClick (Sample.props JS.Null "html" true) (linkWorldAt 1) "ADD"
      = V3.Prompt title defaultUrl pending /\
    V3.resumeLinkClick (Sample.props JS.Null "html" true) (linkWorldAt 1) pending
      (V3.Confirmed {| V3.linkHref := "y.io" |})
      = V3.handleEditorChange (Sample.props JS.Null "html" true)
          (withNewLink (linkWorldAt 1) {| V3.linkHref := "y.io" |}) revision /\
    getBlockMap (getCurrentContent revision)
      = [ {| getKey := "a"; getType := "unstyled";
             getText := "gy.ioo to x.io now";
             getCharacterList :=
               [Sample.plain] ++ replicate 4 (Sample.linked 2)
               ++ replicate 5 Sample.plain ++ replicate 4 (Sample.linked 1)
               ++ replicate 4 Sample.plain |} ].
Proof.
  destruct (confirmed_href_inserts_text (Sample.props JS.Null "html" true)
              (linkWorldAt 1) "ADD" {| V3.linkHref := "y.io" |}
              {| getKey := "a"; getType := "unstyled";
                 getText := "gy.ioo to x.io now";
                 getCharacterList :=
                   [Sample.plain] ++ replicate 4 (Sample.linked 2)
                   ++ replicate 5 Sample.plain ++ replicate 4 (Sample.linked 1)
                   ++ replicate 4 Sample.plain |})
    as (title & defaultUrl & pending & revision & Hclick & Hresume & Hblocks);
    try discriminate; try reflexivity.
  exists title, defaultUrl, pending, revision.
  split; [exact Hclick|]. split; [exact Hresume | exact Hblocks].
Defined.

End TypingSamples.
